(** * The [todo] model generator plugin: classification, field composition,
      ordering and registration

    A shallow embedding of [plugin/main.go] (package [todo]): the
    [MutateConfig] hook walks the schema's types, builds a [ModelBuild],
    sorts three of its collections, registers the generated names in the
    host's type map and hands the build to the template renderer.

    Conventions of the embedding
    - A Go pointer [*ast.Definition] is a definition together with its
      address ([Addr]); [nil] is [None]. [MutateConfig] never writes through
      such a pointer, so a pointer can carry its pointee.
    - A Go map is a [gmap]; reading a missing key gives the zero value.
    - [range] over [cfg.Schema.Types] visits the map's values in an
      unspecified order: the order is an explicit argument of the loop.
    - [return err] and [panic] are the two abnormal exits of the hook; they
      are the [Err] and [Panic] cases of [result].
    - The binder, [templates.ToGo] and [templates.Render] belong to the host
      (gqlgen); they are parameters of the development. *)

From Stdlib Require Import String Ascii List Bool Sorted Permutation.
From stdpp Require Import base option list gmap strings sorting.

Local Open Scope string_scope.
#[local] Set Warnings "-register-all".

(** ** Results of fallible code *)

Definition error := string.

Inductive result (A : Type) : Type :=
| Ok (a : A)
| Err (e : error)
| Panic (msg : string).
Arguments Ok {A} a.
Arguments Err {A} e.
Arguments Panic {A} msg.

Definition bind {A B : Type} (r : result A) (k : A -> result B) : result B :=
  match r with
  | Ok a => k a
  | Err e => Err e
  | Panic m => Panic m
  end.

Notation "'let*' x := r 'in' k" := (bind r (fun x => k))
  (at level 10, x name, r at level 100, k at level 200).

Definition nil_dereference : string :=
  "runtime error: invalid memory address or nil pointer dereference".
Definition index_out_of_range : string :=
  "runtime error: index out of range".

(** The double quote character, for the struct tags. *)
Definition dquote : string := String (ascii_of_nat 34) EmptyString.

(** ** The parsed schema (package [ast] of gqlparser) *)

Module ast.

(** [type DefinitionKind string] and its six constants. *)
Definition DefinitionKind := string.
Definition Scalar : DefinitionKind := "SCALAR".
Definition Object : DefinitionKind := "OBJECT".
Definition Interface : DefinitionKind := "INTERFACE".
Definition Union : DefinitionKind := "UNION".
Definition Enum : DefinitionKind := "ENUM".
Definition InputObject : DefinitionKind := "INPUT_OBJECT".

(** [ast.Type]: a named type, or a list of [Elem]. *)
Inductive Type_ : Type :=
| mkType (NamedType : string) (Elem : option Type_) (NonNull : bool).

Definition NamedType (t : Type_) : string :=
  match t with mkType n _ _ => n end.
Definition Elem (t : Type_) : option Type_ :=
  match t with mkType _ e _ => e end.
Definition NonNull (t : Type_) : bool :=
  match t with mkType _ _ b => b end.

(** [func (t *Type) Name() string]: the innermost named type. *)
Fixpoint Name (t : Type_) : result string :=
  match t with
  | mkType n e _ =>
      if negb (String.eqb n EmptyString) then Ok n
      else match e with
           | Some t' => Name t'
           | None => Panic nil_dereference
           end
  end.

(** Positions are left out of all records; an argument's [Value] and a
    field's [Type] are never nil in a parsed schema and are held by value. *)
Record Value := { Raw : string }.

Record Argument := { ArgName : string; ArgValue : Value }.

Record Directive := { DirName : string; Arguments : list Argument }.

(** [ArgumentList.ForName] and [DirectiveList.ForName]: the first entry
    with the name, or [nil]. *)
Fixpoint ArgumentList_ForName (l : list Argument) (name : string)
  : option Argument :=
  match l with
  | [] => None
  | a :: rest =>
      if String.eqb (ArgName a) name then Some a
      else ArgumentList_ForName rest name
  end.

Fixpoint DirectiveList_ForName (l : list Directive) (name : string)
  : option Directive :=
  match l with
  | [] => None
  | d :: rest =>
      if String.eqb (DirName d) name then Some d
      else DirectiveList_ForName rest name
  end.

Record FieldDefinition := {
  FieldDescription : string;
  FieldName : string;
  FieldType : Type_;
  FieldDirectives : list Directive
}.

Record EnumValueDefinition := {
  ValueDescription : string;
  ValueName : string
}.

(** [ast.Definition], reached through a pointer whose address is [Addr].
    [Interfaces] and [Types] (the names a type implements or unites) are
    read by the hook through [Schema.GetImplements] only. *)
Record Definition_ := {
  Addr : positive;
  Kind : DefinitionKind;
  Description : string;
  DefName : string;
  Directives : list Directive;
  Fields : list FieldDefinition;
  EnumValues : list EnumValueDefinition;
  BuiltIn : bool
}.

(** [p == q] on [*ast.Definition], [q] possibly nil. *)
Definition ptr_eqb (p : Definition_) (q : option Definition_) : bool :=
  match q with
  | Some d => Pos.eqb (Addr p) (Addr d)
  | None => false
  end.

Record Schema := {
  Query : option Definition_;
  Mutation : option Definition_;
  Subscription : option Definition_;
  Types : gmap string Definition_;
  Implements : gmap string (list Definition_)
}.

(** [func (s *Schema) GetImplements(def *Definition) []*Definition]. *)
Definition GetImplements (s : Schema) (def : Definition_)
  : list Definition_ :=
  default [] (Implements s !! DefName def).

End ast.

(** ** Target types (package [go/types]) *)

Module types.

Record Package := { Path : string; PkgName : string }.

(** Only the shape of a type is inspected by the plugin; the structs and
    interfaces it creates are empty. *)
Inductive Type_ : Type :=
| Named (pkg : Package) (name : string) (underlying : option Type_)
| Struct
| Interface
| Pointer (elem : Type_)
| Slice (elem : Type_)
| Basic (name : string).

Definition Underlying (t : Type_) : option Type_ :=
  match t with
  | Named _ _ u => u
  | _ => Some t
  end.

End types.

(** ** The host configuration (package [config] of gqlgen) *)

Module config.

Record TypeMapField := {
  Resolver : bool;
  FieldName : string
}.

Record TypeMapEntry := {
  Model : list string;
  Fields : gmap string TypeMapField
}.

Definition TypeMapField_zero : TypeMapField :=
  {| Resolver := false; FieldName := EmptyString |}.
Definition TypeMapEntry_zero : TypeMapEntry :=
  {| Model := []; Fields := ∅ |}.

(** [tm[name]] and [entry.Fields[name]]: a missing key reads as zero. *)
Definition TypeMap_get (tm : gmap string TypeMapEntry) (name : string)
  : TypeMapEntry :=
  default TypeMapEntry_zero (tm !! name).
Definition Fields_get (e : TypeMapEntry) (name : string) : TypeMapField :=
  default TypeMapField_zero (Fields e !! name).

(** [func (tm TypeMap) UserDefined(name string) bool]. *)
Definition UserDefined (tm : gmap string TypeMapEntry) (name : string)
  : bool :=
  match tm !! name with
  | Some m => negb (Nat.eqb (length (Model m)) 0)
  | None => false
  end.

(** [func (tm TypeMap) Add(name string, goType string)]. *)
Definition Add (tm : gmap string TypeMapEntry) (name goType : string)
  : gmap string TypeMapEntry :=
  let modelCfg := TypeMap_get tm name in
  <[name := {| Model := Model modelCfg ++ [goType];
               Fields := Fields modelCfg |}]> tm.

Record PackageConfig := {
  Filename : string;
  Package : string;
  ImportPath : string
}.

Definition Pkg (c : PackageConfig) : types.Package :=
  {| types.Path := ImportPath c; types.PkgName := Package c |}.

Record Config := {
  Schema : ast.Schema;
  Models : gmap string TypeMapEntry;
  Model_ : PackageConfig
}.

End config.

(** ** The intermediate model (package [todo]) *)

Module Interface.
Record t := { Description : string; Name : string }.
End Interface.

Module Field.
Record t := {
  Description : string;
  Name : string;
  Type_ : types.Type_;
  Tag : string;
  Gorm : string
}.
End Field.

Module Object.
Record t := {
  Description : string;
  Name : string;
  Fields : list Field.t;
  Implements : list string
}.
End Object.

Module EnumValue.
Record t := { Description : string; Name : string }.
End EnumValue.

Module Enum.
Record t := {
  Description : string;
  Name : string;
  Values : list EnumValue.t
}.
End Enum.

Module ModelBuild.
Record t := {
  PackageName : string;
  Interfaces : list Interface.t;
  Models : list Object.t;
  Enums : list Enum.t;
  Scalars : list string
}.
End ModelBuild.

(** [templates.Options] as [MutateConfig] fills it. [Packages] is the host's
    package cache, passed through untouched. *)
Module Options.
Record t := {
  PackageName : string;
  Filename : string;
  Data : ModelBuild.t;
  GeneratedHeader : bool;
  Template : string
}.
End Options.

(** [func isStruct(t types.Type) bool]: the comma-ok type assertion of
    [t.Underlying()] to a struct type, false on a nil underlying type. *)
Definition isStruct (t : types.Type_) : bool :=
  match types.Underlying t with
  | Some types.Struct => true
  | _ => false
  end.

(** [sort.Slice(s, less)] of the Go library, which promises a slice sorted
    by [less] and no more (the sort is not stable). It is run here as an
    insertion sort driven by [less]; [sort_Slice_any_sort] below shows that
    with distinct names every sorting algorithm returns the same slice. *)
Fixpoint sort_insert {A : Type} (less : A -> A -> bool) (x : A) (l : list A)
  : list A :=
  match l with
  | [] => [x]
  | y :: l' => if less x y then x :: y :: l' else y :: sort_insert less x l'
  end.

Fixpoint sort_Slice {A : Type} (less : A -> A -> bool) (l : list A) : list A :=
  match l with
  | [] => []
  | x :: l' => sort_insert less x (sort_Slice less l')
  end.

(** The two struct tags: the serialization tag is the literal json: followed
    by the quoted name, the persistence tag is Sprintf's gorm: followed by
    the quoted text column:%s. *)
Definition json_tag (name : string) : string :=
  "json:" ++ dquote ++ name ++ dquote.
Definition gorm_tag (column : string) : string :=
  "gorm:" ++ dquote ++ "column:" ++ column ++ dquote.

Definition graphql_String : string :=
  "github.com/99designs/gqlgen/graphql.String".

(** The host as the hook sees it: the type map [cfg.Models], and the log
    of the calls made to the host that change or emit something
    ([cfg.Models.Add] and [templates.Render]), oldest first. *)
Inductive HostCall : Type :=
| CallAdd (name goType : string)
| CallRender (o : Options.t).

Record Host := {
  host_models : gmap string config.TypeMapEntry;
  host_calls : list HostCall
}.

(** [cfg.Models.Add(name, goType)], logged. *)
Definition Models_Add (h : Host) (name goType : string) : Host :=
  {| host_models := config.Add (host_models h) name goType;
     host_calls := host_calls h ++ [CallAdd name goType] |}.

(** What one call of the hook does: it returns (an error or nil) and leaves
    the host in some state, or it panics. *)
Inductive Outcome : Type :=
| Returned (err : option error) (h : Host)
| Panicked (msg : string).

(** ** The hook [MutateConfig] *)

Section Plugin.

(** The binder made by [cfg.NewBinder()], [templates.ToGo],
    [templates.Render] and the template literal of the call to [Render]. *)
Variable FindTypeFromName : string -> result types.Type_.
Variable CopyModifiersFromAst : ast.Type_ -> types.Type_ -> types.Type_.
Variable ToGo : string -> string.
Variable Render : Options.t -> option error.
Variable modelTemplate : string.

Definition is_object_kind (k : ast.DefinitionKind) : bool :=
  String.eqb k ast.Object || String.eqb k ast.InputObject.
Definition is_interface_kind (k : ast.DefinitionKind) : bool :=
  String.eqb k ast.Interface || String.eqb k ast.Union.

(** Lines 136-182: the base type of a field, from the user's model when the
    field's type name has one, else by the kind of its definition. *)
Definition field_base_type (cfg : config.Config) (tn : string)
    (fieldDef : option ast.Definition_) : result types.Type_ :=
  if config.UserDefined (config.Models cfg) tn then
    match config.Model (config.TypeMap_get (config.Models cfg) tn) with
    | m :: _ => FindTypeFromName m
    | [] => Panic index_out_of_range
    end
  else
    match fieldDef with
    | None => Panic nil_dereference
    | Some fd =>
        let k := ast.Kind fd in
        let pkg := config.Pkg (config.Model_ cfg) in
        if String.eqb k ast.Scalar then
          Ok (types.Named pkg "string" None)
        else if is_interface_kind k then
          Ok (types.Named pkg (ToGo tn) (Some types.Interface))
        else if String.eqb k ast.Enum then
          Ok (types.Named pkg (ToGo tn) None)
        else if is_object_kind k then
          Ok (types.Named pkg (ToGo tn) (Some types.Struct))
        else Panic ("unknown ast type " ++ k)
    end.

(** Lines 191-193: [isStruct(typ) && (fieldDef.Kind == ...)]; the right
    operand reads through [fieldDef] only when the left one holds. *)
Definition field_pointer_wrap (fieldDef : option ast.Definition_)
    (typ : types.Type_) : result types.Type_ :=
  if isStruct typ then
    match fieldDef with
    | None => Panic nil_dereference
    | Some fd =>
        if is_object_kind (ast.Kind fd) then Ok (types.Pointer typ)
        else Ok typ
    end
  else Ok typ.

(** Lines 195-204: the persistence tag of a field. *)
Definition field_gorm (field : ast.FieldDefinition) : string :=
  match ast.DirectiveList_ForName (ast.FieldDirectives field)
          "isDatabaseField" with
  | Some directive =>
      match ast.ArgumentList_ForName (ast.Arguments directive) "fieldName" with
      | Some arg => gorm_tag (ast.Raw (ast.ArgValue arg))
      | None => gorm_tag (ast.FieldName field)
      end
  | None => EmptyString
  end.

(** Lines 184-187: the field's name, overridden by a non-empty configured
    name [cfg.Models[schemaType.Name].Fields[field.Name].FieldName]. *)
Definition name_override (cfg : config.Config) (schemaType : ast.Definition_)
    (field : ast.FieldDefinition) : string :=
  config.FieldName
    (config.Fields_get
       (config.TypeMap_get (config.Models cfg) (ast.DefName schemaType))
       (ast.FieldName field)).

Definition field_name (cfg : config.Config) (schemaType : ast.Definition_)
    (field : ast.FieldDefinition) : string :=
  let nameOveride := name_override cfg schemaType field in
  if negb (String.eqb nameOveride EmptyString) then nameOveride
  else ast.FieldName field.

(** Lines 135-213: the body of the loop over [schemaType.Fields]. *)
Definition compose_field (cfg : config.Config) (schemaType : ast.Definition_)
    (field : ast.FieldDefinition) : result Field.t :=
  let* tn := ast.Name (ast.FieldType field) in
  let fieldDef := ast.Types (config.Schema cfg) !! tn in
  let* typ := field_base_type cfg tn fieldDef in
  let name := field_name cfg schemaType field in
  let typ := CopyModifiersFromAst (ast.FieldType field) typ in
  let* typ := field_pointer_wrap fieldDef typ in
  let gormType := field_gorm field in
  Ok {| Field.Name := name;
        Field.Type_ := typ;
        Field.Description := ast.FieldDescription field;
        Field.Tag := json_tag (ast.FieldName field);
        Field.Gorm := gormType |}.

Fixpoint compose_fields (cfg : config.Config) (schemaType : ast.Definition_)
    (fields : list ast.FieldDefinition) (acc : list Field.t)
  : result (list Field.t) :=
  match fields with
  | [] => Ok acc
  | field :: rest =>
      let* f := compose_field cfg schemaType field in
      compose_fields cfg schemaType rest (acc ++ [f])
  end.

Definition is_root (s : ast.Schema) (schemaType : ast.Definition_) : bool :=
  ast.ptr_eqb schemaType (ast.Query s)
  || ast.ptr_eqb schemaType (ast.Mutation s)
  || ast.ptr_eqb schemaType (ast.Subscription s).

(** Lines 127-215: the [Object] made of a non-root object type. *)
Definition build_object (cfg : config.Config) (schemaType : ast.Definition_)
  : result Object.t :=
  let implements :=
    map ast.DefName (ast.GetImplements (config.Schema cfg) schemaType) in
  let* fields := compose_fields cfg schemaType (ast.Fields schemaType) [] in
  Ok {| Object.Description := ast.Description schemaType;
        Object.Name := ast.DefName schemaType;
        Object.Fields := fields;
        Object.Implements := implements |}.

Definition build_interface (schemaType : ast.Definition_) : Interface.t :=
  {| Interface.Description := ast.Description schemaType;
     Interface.Name := ast.DefName schemaType |}.

Definition build_enum (schemaType : ast.Definition_) : Enum.t :=
  {| Enum.Name := ast.DefName schemaType;
     Enum.Description := ast.Description schemaType;
     Enum.Values :=
       map (fun v => {| EnumValue.Name := ast.ValueName v;
                        EnumValue.Description := ast.ValueDescription v |})
           (ast.EnumValues schemaType) |}.

Definition add_interface (b : ModelBuild.t) (it : Interface.t) :=
  {| ModelBuild.PackageName := ModelBuild.PackageName b;
     ModelBuild.Interfaces := ModelBuild.Interfaces b ++ [it];
     ModelBuild.Models := ModelBuild.Models b;
     ModelBuild.Enums := ModelBuild.Enums b;
     ModelBuild.Scalars := ModelBuild.Scalars b |}.
Definition add_model (b : ModelBuild.t) (it : Object.t) :=
  {| ModelBuild.PackageName := ModelBuild.PackageName b;
     ModelBuild.Interfaces := ModelBuild.Interfaces b;
     ModelBuild.Models := ModelBuild.Models b ++ [it];
     ModelBuild.Enums := ModelBuild.Enums b;
     ModelBuild.Scalars := ModelBuild.Scalars b |}.
Definition add_enum (b : ModelBuild.t) (it : Enum.t) :=
  {| ModelBuild.PackageName := ModelBuild.PackageName b;
     ModelBuild.Interfaces := ModelBuild.Interfaces b;
     ModelBuild.Models := ModelBuild.Models b;
     ModelBuild.Enums := ModelBuild.Enums b ++ [it];
     ModelBuild.Scalars := ModelBuild.Scalars b |}.
Definition add_scalar (b : ModelBuild.t) (it : string) :=
  {| ModelBuild.PackageName := ModelBuild.PackageName b;
     ModelBuild.Interfaces := ModelBuild.Interfaces b;
     ModelBuild.Models := ModelBuild.Models b;
     ModelBuild.Enums := ModelBuild.Enums b;
     ModelBuild.Scalars := ModelBuild.Scalars b ++ [it] |}.

(** Lines 109-233: the body of the loop over [cfg.Schema.Types]. The
    [switch] on the kind has no [default] case. *)
Definition classify_type (cfg : config.Config) (b : ModelBuild.t)
    (schemaType : ast.Definition_) : result ModelBuild.t :=
  if ast.BuiltIn schemaType then Ok b
  else
    let k := ast.Kind schemaType in
    if is_interface_kind k then
      Ok (add_interface b (build_interface schemaType))
    else if is_object_kind k then
      if is_root (config.Schema cfg) schemaType then Ok b
      else
        let* it := build_object cfg schemaType in
        Ok (add_model b it)
    else if String.eqb k ast.Enum then
      Ok (add_enum b (build_enum schemaType))
    else if String.eqb k ast.Scalar then
      Ok (add_scalar b (ast.DefName schemaType))
    else Ok b.

(** The loop itself; [order] is the order in which [range] yields the
    values of [cfg.Schema.Types]. *)
Fixpoint classify_types (cfg : config.Config) (order : list ast.Definition_)
    (b : ModelBuild.t) : result ModelBuild.t :=
  match order with
  | [] => Ok b
  | schemaType :: rest =>
      let* b' := classify_type cfg b schemaType in
      classify_types cfg rest b'
  end.

Definition classify (cfg : config.Config) (order : list ast.Definition_)
  : result ModelBuild.t :=
  classify_types cfg order
    {| ModelBuild.PackageName := config.Package (config.Model_ cfg);
       ModelBuild.Interfaces := [];
       ModelBuild.Models := [];
       ModelBuild.Enums := [];
       ModelBuild.Scalars := [] |}.

(** Lines 234-236: the three sorts; [Scalars] is left as collected. *)
Definition sort_build (b : ModelBuild.t) : ModelBuild.t :=
  {| ModelBuild.PackageName := ModelBuild.PackageName b;
     ModelBuild.Interfaces :=
       sort_Slice (fun x y => String.ltb (Interface.Name x) (Interface.Name y))
         (ModelBuild.Interfaces b);
     ModelBuild.Models :=
       sort_Slice (fun x y => String.ltb (Object.Name x) (Object.Name y))
         (ModelBuild.Models b);
     ModelBuild.Enums :=
       sort_Slice (fun x y => String.ltb (Enum.Name x) (Enum.Name y))
         (ModelBuild.Enums b);
     ModelBuild.Scalars := ModelBuild.Scalars b |}.

(** Lines 238-249: the four registration loops, in the order of the code. *)
Definition generated_path (cfg : config.Config) (name : string) : string :=
  config.ImportPath (config.Model_ cfg) ++ "." ++ ToGo name.

Definition register (cfg : config.Config) (b : ModelBuild.t) (h : Host)
  : Host :=
  let h := fold_left (fun h it =>
      Models_Add h (Enum.Name it) (generated_path cfg (Enum.Name it)))
    (ModelBuild.Enums b) h in
  let h := fold_left (fun h it =>
      Models_Add h (Object.Name it) (generated_path cfg (Object.Name it)))
    (ModelBuild.Models b) h in
  let h := fold_left (fun h it =>
      Models_Add h (Interface.Name it)
        (generated_path cfg (Interface.Name it)))
    (ModelBuild.Interfaces b) h in
  fold_left (fun h it => Models_Add h it graphql_String)
    (ModelBuild.Scalars b) h.

(** Line 251: the test that skips rendering. *)
Definition build_is_empty (b : ModelBuild.t) : bool :=
  Nat.eqb (length (ModelBuild.Models b)) 0
  && Nat.eqb (length (ModelBuild.Enums b)) 0
  && Nat.eqb (length (ModelBuild.Interfaces b)) 0
  && Nat.eqb (length (ModelBuild.Scalars b)) 0.

Definition render_options (cfg : config.Config) (b : ModelBuild.t)
  : Options.t :=
  {| Options.PackageName := config.Package (config.Model_ cfg);
     Options.Filename := config.Filename (config.Model_ cfg);
     Options.Data := b;
     Options.GeneratedHeader := true;
     Options.Template := modelTemplate |}.

(** The build as it stands after line 236. *)
Definition assemble (cfg : config.Config) (order : list ast.Definition_)
  : result ModelBuild.t :=
  let* b := classify cfg order in
  Ok (sort_build b).

Definition initial_host (cfg : config.Config) : Host :=
  {| host_models := config.Models cfg; host_calls := [] |}.

(** [func (m *Plugin) MutateConfig(cfg *config.Config) error]. *)
Definition MutateConfig (cfg : config.Config) (order : list ast.Definition_)
  : Outcome :=
  match assemble cfg order with
  | Panic msg => Panicked msg
  | Err e => Returned (Some e) (initial_host cfg)
  | Ok b =>
      let h := register cfg b (initial_host cfg) in
      if build_is_empty b then Returned None h
      else
        let opts := render_options cfg b in
        Returned (Render opts)
          {| host_models := host_models h;
             host_calls := host_calls h ++ [CallRender opts] |}
  end.

End Plugin.

(** ** The source contributed by [InjectSourceEarly]

    The GraphQL text of the source, read as the declarations it makes: two
    directives, with their arguments and the places they may stand at, and
    the scalar [Time]. *)
Record DirectiveDeclaration := {
  decl_name : string;
  decl_arguments : list string;
  decl_locations : list string
}.

Record Source := {
  source_name : string;
  source_directives : list DirectiveDeclaration;
  source_scalars : list string;
  source_builtin : bool
}.

Definition InjectSourceEarly : Source :=
  {| source_name := "todo/directives.graphql";
     source_directives :=
       [ {| decl_name := "goField";
            decl_arguments := ["forceResolver"; "name"];
            decl_locations := ["INPUT_FIELD_DEFINITION"; "FIELD_DEFINITION"] |};
         {| decl_name := "isDatabaseField";
            decl_arguments := ["fieldName"];
            decl_locations := ["OBJECT"; "FIELD_DEFINITION"] |} ];
     source_scalars := ["Time"];
     source_builtin := false |}.

(** ** A sample host and schema

    The schema of the running example:
<<
    type Query { me: User }
    interface Node
    type User implements Node {
      id: ID!  name: String @isDatabaseField
      email: String @isDatabaseField(fieldName: "mail")
      profile: Profile!  friends: [User]  status: Status  seen: Time
    }
    type Profile @isDatabaseField { bio: String }
    enum Status { ACTIVE DONE }
    scalar Time
>>
    with the built-in scalars [ID] and [String], and a configuration that
    renames [User.name] to [FullName]. *)

Module Sample.

Definition named (n : string) (nonNull : bool) : ast.Type_ :=
  ast.mkType n None nonNull.
Definition listOf (t : ast.Type_) (nonNull : bool) : ast.Type_ :=
  ast.mkType EmptyString (Some t) nonNull.

Definition fld (name : string) (t : ast.Type_) (ds : list ast.Directive)
  : ast.FieldDefinition :=
  {| ast.FieldDescription := EmptyString; ast.FieldName := name;
     ast.FieldType := t; ast.FieldDirectives := ds |}.

Definition def (addr : positive) (k : ast.DefinitionKind) (name : string)
    (ds : list ast.Directive) (fs : list ast.FieldDefinition)
    (vs : list string) (builtin : bool) : ast.Definition_ :=
  {| ast.Addr := addr; ast.Kind := k; ast.Description := EmptyString;
     ast.DefName := name; ast.Directives := ds; ast.Fields := fs;
     ast.EnumValues :=
       map (fun v => {| ast.ValueDescription := EmptyString;
                        ast.ValueName := v |}) vs;
     ast.BuiltIn := builtin |}.

Definition isDatabaseField : ast.Directive :=
  {| ast.DirName := "isDatabaseField"; ast.Arguments := [] |}.
Definition isDatabaseField_as (column : string) : ast.Directive :=
  {| ast.DirName := "isDatabaseField";
     ast.Arguments :=
       [ {| ast.ArgName := "fieldName";
            ast.ArgValue := {| ast.Raw := column |} |} ] |}.

Definition tQuery : ast.Definition_ :=
  def 1 ast.Object "Query" [] [fld "me" (named "User" false) []] [] false.
Definition tNode : ast.Definition_ :=
  def 2 ast.Interface "Node" [] [] [] false.
Definition tUser : ast.Definition_ :=
  def 3 ast.Object "User" []
    [ fld "id" (named "ID" true) [];
      fld "name" (named "String" false) [isDatabaseField];
      fld "email" (named "String" false) [isDatabaseField_as "mail"];
      fld "profile" (named "Profile" true) [];
      fld "friends" (listOf (named "User" false) false) [];
      fld "status" (named "Status" false) [];
      fld "seen" (named "Time" false) [] ]
    [] false.
Definition tProfile : ast.Definition_ :=
  def 4 ast.Object "Profile" [isDatabaseField]
    [fld "bio" (named "String" false) []] [] false.
Definition tStatus : ast.Definition_ :=
  def 5 ast.Enum "Status" [] [] ["ACTIVE"; "DONE"] false.
Definition tTime : ast.Definition_ :=
  def 6 ast.Scalar "Time" [] [] [] false.
Definition tID : ast.Definition_ :=
  def 7 ast.Scalar "ID" [] [] [] true.
Definition tString : ast.Definition_ :=
  def 8 ast.Scalar "String" [] [] [] true.

Definition allTypes : list ast.Definition_ :=
  [tUser; tQuery; tTime; tStatus; tNode; tProfile; tID; tString].

Definition schema : ast.Schema :=
  {| ast.Query := Some tQuery;
     ast.Mutation := None;
     ast.Subscription := None;
     ast.Types :=
       list_to_map (map (fun d => (ast.DefName d, d)) allTypes);
     ast.Implements := {[ "User" := [tNode] ]} |}.

Definition models : gmap string config.TypeMapEntry :=
  {[ "User" :=
       {| config.Model := [];
          config.Fields :=
            {[ "name" := {| config.Resolver := false;
                            config.FieldName := "FullName" |} ]} |} ]}.

Definition cfg : config.Config :=
  {| config.Schema := schema;
     config.Models := models;
     config.Model_ :=
       {| config.Filename := "models_gen.go";
          config.Package := "model";
          config.ImportPath := "myapp/model" |} |}.

(** The binder of gqlgen on this configuration: no user model resolves, and
    modifiers are copied as [CopyModifiersFromAst] of gqlgen does (a list
    becomes a slice, of pointers when its elements are structs; a nullable
    type that is not an interface becomes a pointer). *)
Definition FindTypeFromName (name : string) : result types.Type_ :=
  Err ("unable to find type " ++ name).

Fixpoint CopyModifiersFromAst (t : ast.Type_) (base : types.Type_)
  : types.Type_ :=
  match t with
  | ast.mkType _ (Some elem) _ =>
      let child := CopyModifiersFromAst elem base in
      types.Slice (if isStruct child then types.Pointer child else child)
  | ast.mkType _ None nonNull =>
      let isInterface :=
        match base with
        | types.Named _ _ (Some types.Interface) => true
        | _ => false
        end in
      if negb isInterface && negb nonNull then types.Pointer base else base
  end.

Definition ToGo (name : string) : string := name.

Definition Render (o : Options.t) : option error := None.

Definition modelTemplate : string := "{{ range $model := .Models }}".

Definition run (c : config.Config) (order : list ast.Definition_) : Outcome :=
  MutateConfig FindTypeFromName CopyModifiersFromAst ToGo Render modelTemplate
    c order.

Definition assembled : result ModelBuild.t :=
  assemble FindTypeFromName CopyModifiersFromAst ToGo cfg allTypes.

(** The build assembled from the sample, evaluated. *)
Definition build : ModelBuild.t :=
  Eval vm_compute in
    match assembled with
    | Ok b => b
    | _ => {| ModelBuild.PackageName := EmptyString;
              ModelBuild.Interfaces := []; ModelBuild.Models := [];
              ModelBuild.Enums := []; ModelBuild.Scalars := [] |}
    end.

(** A type of a kind that is none of the six constants, alone in a schema,
    and next to an object type with a field of that type. *)
Definition tOdd : ast.Definition_ :=
  def 9 "FRAGMENT" "Odd" [] [] [] false.
Definition tHolder : ast.Definition_ :=
  def 10 ast.Object "Holder" [] [fld "odd" (named "Odd" false) []] [] false.

Definition cfg_of (ts : list ast.Definition_) : config.Config :=
  {| config.Schema :=
       {| ast.Query := None; ast.Mutation := None; ast.Subscription := None;
          ast.Types := list_to_map (map (fun d => (ast.DefName d, d)) ts);
          ast.Implements := ∅ |};
     config.Models := ∅;
     config.Model_ :=
       {| config.Filename := "models_gen.go";
          config.Package := "model";
          config.ImportPath := "myapp/model" |} |}.

End Sample.

(** ** The order of Go's [<] on strings *)

Lemma ascii_compare_refl (a : ascii) : Ascii.compare a a = Eq.
Proof. unfold Ascii.compare. apply N.compare_refl. Qed.

Lemma ascii_compare_trans (c : comparison) (x y z : ascii) :
  Ascii.compare x y = c -> Ascii.compare y z = c -> Ascii.compare x z = c.
Proof.
  unfold Ascii.compare. destruct c; intros H1 H2.
  - apply N.compare_eq_iff in H1, H2. apply N.compare_eq_iff. congruence.
  - rewrite N.compare_lt_iff in *. lia.
  - rewrite N.compare_gt_iff in *. lia.
Qed.

Lemma string_compare_refl (s : string) : String.compare s s = Eq.
Proof.
  induction s as [|a s IH]; simpl; [reflexivity|].
  now rewrite ascii_compare_refl.
Qed.

Lemma string_compare_trans (c : comparison) (s1 s2 s3 : string) :
  String.compare s1 s2 = c -> String.compare s2 s3 = c ->
  String.compare s1 s3 = c.
Proof.
  revert s2 s3. induction s1 as [|a s1 IH]; intros [|b s2] [|d s3];
    simpl; try congruence.
  destruct (Ascii.compare a b) eqn:Hab.
  - apply Ascii.compare_eq_iff in Hab. subst b.
    destruct (Ascii.compare a d); eauto.
  - intros <-. destruct (Ascii.compare b d) eqn:Hbd; try congruence.
    + apply Ascii.compare_eq_iff in Hbd. subst d. now rewrite Hab.
    + now rewrite (ascii_compare_trans Lt a b d).
  - intros <-. destruct (Ascii.compare b d) eqn:Hbd; try congruence.
    + apply Ascii.compare_eq_iff in Hbd. subst d. now rewrite Hab.
    + now rewrite (ascii_compare_trans Gt a b d).
Qed.

Lemma string_ltb_leb (s1 s2 : string) :
  String.ltb s1 s2 = negb (String.leb s2 s1).
Proof.
  unfold String.ltb, String.leb. rewrite (String.compare_antisym s1 s2).
  now destruct (String.compare s2 s1).
Qed.

Lemma string_leb_trans (s1 s2 s3 : string) :
  String.leb s1 s2 = true -> String.leb s2 s3 = true ->
  String.leb s1 s3 = true.
Proof.
  unfold String.leb.
  destruct (String.compare s1 s2) eqn:H12; try discriminate;
    destruct (String.compare s2 s3) eqn:H23; try discriminate; intros _ _.
  - apply String.compare_eq_iff in H12, H23. subst.
    now rewrite string_compare_refl.
  - apply String.compare_eq_iff in H12. subst. now rewrite H23.
  - apply String.compare_eq_iff in H23. subst. now rewrite H12.
  - now rewrite (string_compare_trans Lt s1 s2 s3).
Qed.

(** ** [sort.Slice] sorts *)

Section Sorting.

Context {A : Type} (key : A -> string).

Definition key_less (x y : A) : bool := String.ltb (key x) (key y).

(** [x] may stand before [y] in a slice sorted by [key] ascending. *)
Definition key_le (x y : A) : Prop := String.leb (key x) (key y) = true.

#[local] Instance key_le_trans : Transitive key_le.
Proof. intros x y z. apply string_leb_trans. Qed.

Lemma sort_insert_perm (x : A) (l : list A) :
  sort_insert key_less x l ≡ₚ x :: l.
Proof.
  induction l as [|y l IH]; simpl; [done|].
  destruct (key_less x y); [done|].
  rewrite IH. apply perm_swap.
Qed.

Lemma sort_Slice_perm (l : list A) : sort_Slice key_less l ≡ₚ l.
Proof.
  induction l as [|x l IH]; simpl; [done|].
  now rewrite sort_insert_perm, IH.
Qed.

Lemma sort_insert_sorted (x : A) (l : list A) :
  StronglySorted key_le l -> StronglySorted key_le (sort_insert key_less x l).
Proof.
  induction 1 as [|y l Hs IH Hy]; simpl.
  - repeat constructor.
  - unfold key_less at 1. rewrite string_ltb_leb.
    destruct (String.leb (key y) (key x)) eqn:Hyx; simpl.
    + constructor; [exact IH|].
      rewrite sort_insert_perm. constructor; [exact Hyx|exact Hy].
    + assert (Hxy : key_le x y).
      { unfold key_le. destruct (String.leb_total (key x) (key y)); congruence. }
      constructor; [now constructor|].
      constructor; [exact Hxy|].
      eapply Forall_impl; [exact Hy|]. intros z Hz. now transitivity y.
Qed.

Lemma sort_Slice_sorted (l : list A) :
  StronglySorted key_le (sort_Slice key_less l).
Proof.
  induction l as [|x l IH]; simpl; [constructor|].
  now apply sort_insert_sorted.
Qed.

(** With pairwise distinct keys a slice has one sorted arrangement only:
    whatever algorithm [sort.Slice] runs, it returns what [sort_Slice]
    does, and the result does not depend on the order of the input. *)
Lemma sorted_perm_unique (l1 l2 : list A) :
  StronglySorted key_le l1 -> StronglySorted key_le l2 ->
  l1 ≡ₚ l2 -> NoDup (key <$> l1) -> l1 = l2.
Proof.
  intros Hs1 Hs2 Hp Hnd.
  apply (StronglySorted_unique_strong key_le); [|done..].
  intros x1 x2 H1 H2 H12 H21. rewrite <- Hp in H2.
  assert (Hk : key x1 = key x2) by now apply String.leb_antisym.
  apply list_elem_of_lookup in H1 as [i Hi], H2 as [j Hj].
  assert (i = j).
  { eapply NoDup_lookup; [exact Hnd| |].
    - rewrite list_lookup_fmap, Hi. reflexivity.
    - rewrite list_lookup_fmap, Hj. simpl. now rewrite Hk. }
  subst j. congruence.
Qed.

Lemma sort_Slice_any_sort (l l' : list A) :
  l' ≡ₚ l -> StronglySorted key_le l' -> NoDup (key <$> l) ->
  l' = sort_Slice key_less l.
Proof.
  intros Hp Hs Hnd. apply sorted_perm_unique.
  - exact Hs.
  - apply sort_Slice_sorted.
  - now rewrite sort_Slice_perm.
  - now rewrite Hp.
Qed.

Lemma sort_Slice_unique (l1 l2 : list A) :
  l1 ≡ₚ l2 -> NoDup (key <$> l1) ->
  sort_Slice key_less l1 = sort_Slice key_less l2.
Proof.
  intros Hp Hnd. apply sort_Slice_any_sort.
  - now rewrite sort_Slice_perm.
  - apply sort_Slice_sorted.
  - now rewrite <- Hp.
Qed.

End Sorting.

Local Open Scope list_scope.

(** ** Which collection a schema type goes to *)

Definition sel_interface (d : ast.Definition_) : bool :=
  negb (ast.BuiltIn d) && is_interface_kind (ast.Kind d).
Definition sel_model (s : ast.Schema) (d : ast.Definition_) : bool :=
  negb (ast.BuiltIn d) && is_object_kind (ast.Kind d) && negb (is_root s d).
Definition sel_enum (d : ast.Definition_) : bool :=
  negb (ast.BuiltIn d) && String.eqb (ast.Kind d) ast.Enum.
Definition sel_scalar (d : ast.Definition_) : bool :=
  negb (ast.BuiltIn d) && String.eqb (ast.Kind d) ast.Scalar.

(** The four known kinds (six constants). *)
Definition known_kind (k : ast.DefinitionKind) : bool :=
  is_interface_kind k || is_object_kind k
  || String.eqb k ast.Enum || String.eqb k ast.Scalar.

(** The schema's type table is keyed by the types' names, as gqlparser
    builds it, and [order] is one order in which [range] may yield it. *)
Definition keyed_by_name (s : ast.Schema) : Prop :=
  map_Forall (fun k d => ast.DefName d = k) (ast.Types s).
Definition range_order (s : ast.Schema) (order : list ast.Definition_) : Prop :=
  order ≡ₚ (map_to_list (ast.Types s)).*2.

Definition has_directive (ds : list ast.Directive) (name : string) : Prop :=
  is_Some (ast.DirectiveList_ForName ds name).

(** The sequence of [Add] calls that registers a build. *)
Definition registrations (ToGo : string -> string) (cfg : config.Config)
    (b : ModelBuild.t) : list (string * string) :=
  ((fun it => (Enum.Name it, generated_path ToGo cfg (Enum.Name it)))
     <$> ModelBuild.Enums b)
  ++ ((fun it => (Object.Name it, generated_path ToGo cfg (Object.Name it)))
        <$> ModelBuild.Models b)
  ++ ((fun it =>
         (Interface.Name it, generated_path ToGo cfg (Interface.Name it)))
        <$> ModelBuild.Interfaces b)
  ++ ((fun it => (it, graphql_String)) <$> ModelBuild.Scalars b).

(** A collection is sorted by name ascending: every entry may stand before
    all later ones. *)
Definition sorted_by_name {A : Type} (name : A -> string) (l : list A) : Prop :=
  StronglySorted (key_le name) l.

Definition all_empty (b : ModelBuild.t) : Prop :=
  ModelBuild.Interfaces b = [] /\ ModelBuild.Models b = []
  /\ ModelBuild.Enums b = [] /\ ModelBuild.Scalars b = [].

Definition is_Ok {A : Type} (r : result A) : Prop :=
  match r with Ok _ => True | _ => False end.

Lemma kinds_exclusive (k : ast.DefinitionKind) :
  (is_interface_kind k = true ->
   is_object_kind k = false /\ String.eqb k ast.Enum = false
   /\ String.eqb k ast.Scalar = false)
  /\ (is_object_kind k = true ->
      String.eqb k ast.Enum = false /\ String.eqb k ast.Scalar = false)
  /\ (String.eqb k ast.Enum = true -> String.eqb k ast.Scalar = false).
Proof.
  unfold is_interface_kind, is_object_kind.
  split; [|split]; intros H;
    try (apply orb_true_iff in H as [H|H]);
    apply String.eqb_eq in H; subst k; repeat split; reflexivity.
Qed.

Lemma map_is_fmap {A B : Type} (f : A -> B) (l : list A) : map f l = f <$> l.
Proof. induction l as [|x l IH]; [reflexivity|]. cbn. now rewrite IH. Qed.

Lemma bind_Ok {A B : Type} (r : result A) (k : A -> result B) (b : B) :
  bind r k = Ok b -> exists a, r = Ok a /\ k a = Ok b.
Proof. destruct r; simpl; [eauto|discriminate..]. Qed.

Section Properties.

Variable FindTypeFromName : string -> result types.Type_.
Variable CopyModifiersFromAst : ast.Type_ -> types.Type_ -> types.Type_.
Variable ToGo : string -> string.
Variable Render : Options.t -> option error.
Variable modelTemplate : string.

Abbreviation compose_field' :=
  (compose_field FindTypeFromName CopyModifiersFromAst ToGo).
Abbreviation compose_fields' :=
  (compose_fields FindTypeFromName CopyModifiersFromAst ToGo).
Abbreviation build_object' :=
  (build_object FindTypeFromName CopyModifiersFromAst ToGo).
Abbreviation classify_type' :=
  (classify_type FindTypeFromName CopyModifiersFromAst ToGo).
Abbreviation classify_types' :=
  (classify_types FindTypeFromName CopyModifiersFromAst ToGo).
Abbreviation classify' := (classify FindTypeFromName CopyModifiersFromAst ToGo).
Abbreviation assemble' := (assemble FindTypeFromName CopyModifiersFromAst ToGo).
Abbreviation MutateConfig' :=
  (MutateConfig FindTypeFromName CopyModifiersFromAst ToGo Render
     modelTemplate).

(** The field descriptors of an object are the composed schema fields, one
    for one and in order. *)
Definition fields_composed (cfg : config.Config) (d : ast.Definition_)
    (fs : list Field.t) : Prop :=
  Forall2 (fun field f => compose_field' cfg d field = Ok f) (ast.Fields d) fs.

Lemma compose_fields_spec cfg d fields acc r :
  compose_fields' cfg d fields acc = Ok r ->
  exists fs, r = acc ++ fs
    /\ Forall2 (fun field f => compose_field' cfg d field = Ok f) fields fs.
Proof.
  revert acc. induction fields as [|field rest IH]; simpl; intros acc H.
  - exists []. split; [|constructor]. rewrite app_nil_r. congruence.
  - apply bind_Ok in H as (f & Hf & H).
    apply IH in H as (fs & -> & Hfs).
    exists (f :: fs). split; [now rewrite <- app_assoc|now constructor].
Qed.

Lemma compose_fields_complete cfg d fields acc fs :
  Forall2 (fun field f => compose_field' cfg d field = Ok f) fields fs ->
  compose_fields' cfg d fields acc = Ok (acc ++ fs).
Proof.
  intros H. revert acc. induction H as [|field f rest fs Hf _ IH]; intros acc.
  - simpl. now rewrite app_nil_r.
  - simpl. rewrite Hf. simpl. rewrite IH. now rewrite <- app_assoc.
Qed.

Lemma build_object_spec cfg d m :
  build_object' cfg d = Ok m ->
  Object.Name m = ast.DefName d
  /\ Object.Description m = ast.Description d
  /\ fields_composed cfg d (Object.Fields m).
Proof.
  unfold build_object. intros H.
  apply bind_Ok in H as (fs & Hfs & [= <-]). simpl.
  apply compose_fields_spec in Hfs as (fs' & -> & Hfs'). auto.
Qed.

(** The object of a type whose fields all compose; total, for counting. *)
Definition object_of (cfg : config.Config) (d : ast.Definition_) : Object.t :=
  match build_object' cfg d with
  | Ok m => m
  | _ => {| Object.Description := ast.Description d;
            Object.Name := ast.DefName d;
            Object.Fields := [];
            Object.Implements := [] |}
  end.

Lemma object_of_Name cfg d : Object.Name (object_of cfg d) = ast.DefName d.
Proof.
  unfold object_of. destruct (build_object' cfg d) as [m| |] eqn:H; try done.
  now apply build_object_spec in H.
Qed.

Lemma classify_type_cases cfg b d :
  classify_type' cfg b d =
  if sel_interface d then Ok (add_interface b (build_interface d))
  else if sel_model (config.Schema cfg) d then
    let* it := build_object' cfg d in Ok (add_model b it)
  else if sel_enum d then Ok (add_enum b (build_enum d))
  else if sel_scalar d then Ok (add_scalar b (ast.DefName d))
  else Ok b.
Proof.
  unfold classify_type, sel_interface, sel_model, sel_enum, sel_scalar.
  destruct (ast.BuiltIn d); simpl; [reflexivity|].
  pose proof (kinds_exclusive (ast.Kind d)) as (_ & Ho & _).
  destruct (is_interface_kind (ast.Kind d)); simpl; [reflexivity|].
  destruct (is_object_kind (ast.Kind d)); simpl.
  - destruct (Ho eq_refl) as [-> ->].
    destruct (is_root (config.Schema cfg) d); reflexivity.
  - destruct (String.eqb (ast.Kind d) ast.Enum); [reflexivity|].
    destruct (String.eqb (ast.Kind d) ast.Scalar); reflexivity.
Qed.

Lemma sel_exclusive s d :
  (sel_interface d = true ->
   sel_model s d = false /\ sel_enum d = false /\ sel_scalar d = false)
  /\ (sel_model s d = true -> sel_enum d = false /\ sel_scalar d = false)
  /\ (sel_enum d = true -> sel_scalar d = false).
Proof.
  unfold sel_interface, sel_model, sel_enum, sel_scalar.
  pose proof (kinds_exclusive (ast.Kind d)) as (Hi & Ho & He).
  destruct (ast.BuiltIn d); simpl; [repeat split; discriminate|].
  split; [|split].
  - intros H. destruct (Hi H) as (-> & -> & ->). auto.
  - intros [H _]%andb_true_iff. destruct (Ho H) as (-> & ->). auto.
  - intros H. now rewrite (He H).
Qed.

(** What the loop over the types leaves in the build. *)
Lemma classify_types_spec cfg order b b' :
  classify_types' cfg order b = Ok b' ->
  ModelBuild.PackageName b' = ModelBuild.PackageName b
  /\ ModelBuild.Interfaces b' =
       ModelBuild.Interfaces b
       ++ (build_interface <$> filter (fun d => sel_interface d) order)
  /\ ModelBuild.Models b' =
       ModelBuild.Models b
       ++ (object_of cfg
             <$> filter (fun d => sel_model (config.Schema cfg) d) order)
  /\ ModelBuild.Enums b' =
       ModelBuild.Enums b ++ (build_enum <$> filter (fun d => sel_enum d) order)
  /\ ModelBuild.Scalars b' =
       ModelBuild.Scalars b
       ++ (ast.DefName <$> filter (fun d => sel_scalar d) order)
  /\ Forall (fun d => is_Ok (build_object' cfg d))
       (filter (fun d => sel_model (config.Schema cfg) d) order).
Proof.
  revert b. induction order as [|d order IH]; simpl; intros b H.
  - injection H as <-. rewrite !app_nil_r. repeat split; constructor.
  - apply bind_Ok in H as (b1 & H1 & H).
    apply IH in H as (Hp & Hi & Hm & He & Hs & Hok). clear IH.
    rewrite Hp, Hi, Hm, He, Hs. clear Hp Hi Hm He Hs.
    rewrite classify_type_cases in H1.
    rewrite !filter_cons.
    pose proof (sel_exclusive (config.Schema cfg) d) as (Xi & Xm & Xe).
    destruct (sel_interface d) eqn:Ei.
    { destruct (Xi eq_refl) as (-> & -> & ->). injection H1 as <-. simpl.
      rewrite <- app_assoc. auto 10. }
    destruct (sel_model (config.Schema cfg) d) eqn:Em.
    { destruct (Xm eq_refl) as (-> & ->).
      apply bind_Ok in H1 as (it & Hit & [= <-]). simpl.
      unfold object_of at 2. rewrite Hit.
      rewrite <- app_assoc. repeat split; try done.
      constructor; [now rewrite Hit|done]. }
    destruct (sel_enum d) eqn:Ee.
    { rewrite (Xe eq_refl). injection H1 as <-. simpl.
      rewrite <- app_assoc. auto 10. }
    destruct (sel_scalar d) eqn:Es; injection H1 as <-; simpl.
    + rewrite <- app_assoc. auto 10.
    + auto 10.
Qed.

Lemma classify_types_complete cfg order b :
  Forall (fun d => is_Ok (build_object' cfg d))
    (filter (fun d => sel_model (config.Schema cfg) d) order) ->
  exists b', classify_types' cfg order b = Ok b'.
Proof.
  revert b. induction order as [|d order IH]; simpl; intros b H; [eauto|].
  rewrite classify_type_cases. rewrite filter_cons in H.
  pose proof (sel_exclusive (config.Schema cfg) d) as (Xi & _ & _).
  destruct (sel_interface d) eqn:Ei.
  { destruct (Xi eq_refl) as (Em & _). rewrite Em in H. simpl in *. eauto. }
  destruct (sel_model (config.Schema cfg) d) eqn:Em; simpl in *.
  { apply Forall_cons in H as [Hd H].
    destruct (build_object' cfg d); simpl in *; [eauto|done..]. }
  destruct (sel_enum d); [eauto|]. destruct (sel_scalar d); eauto.
Qed.

Lemma assemble_Ok cfg order b :
  assemble' cfg order = Ok b ->
  exists b0, classify' cfg order = Ok b0 /\ b = sort_build b0.
Proof.
  unfold assemble. intros (b0 & H & [= <-])%bind_Ok. eauto.
Qed.

(** The collections of an assembled build, from the schema types. *)
Lemma assemble_spec cfg order b :
  assemble' cfg order = Ok b ->
  ModelBuild.PackageName b = config.Package (config.Model_ cfg)
  /\ ModelBuild.Interfaces b =
       sort_Slice (key_less Interface.Name)
         (build_interface <$> filter (fun d => sel_interface d) order)
  /\ ModelBuild.Models b =
       sort_Slice (key_less Object.Name)
         (object_of cfg
            <$> filter (fun d => sel_model (config.Schema cfg) d) order)
  /\ ModelBuild.Enums b =
       sort_Slice (key_less Enum.Name)
         (build_enum <$> filter (fun d => sel_enum d) order)
  /\ ModelBuild.Scalars b =
       ast.DefName <$> filter (fun d => sel_scalar d) order
  /\ Forall (fun d => is_Ok (build_object' cfg d))
       (filter (fun d => sel_model (config.Schema cfg) d) order).
Proof.
  intros (b0 & H & ->)%assemble_Ok. unfold classify in H.
  apply classify_types_spec in H as (Hp & Hi & Hm & He & Hs & Hok).
  simpl in *. rewrite Hp, Hi, Hm, He, Hs. auto 10.
Qed.

(** Every model of an assembled build is the object built from a non-root
    object type of the schema. *)
Lemma assemble_models cfg order b m :
  assemble' cfg order = Ok b -> m ∈ ModelBuild.Models b ->
  exists d, d ∈ order /\ sel_model (config.Schema cfg) d = true
    /\ build_object' cfg d = Ok m.
Proof.
  intros (_ & _ & Hm & _ & _ & Hok)%assemble_spec Hin.
  rewrite Hm, sort_Slice_perm in Hin.
  apply list_elem_of_fmap in Hin as (d & -> & Hd).
  rewrite Forall_forall in Hok. specialize (Hok d Hd).
  apply list_elem_of_filter in Hd as [Hsel Hd].
  exists d. repeat split; [done|now apply Is_true_true|].
  unfold object_of. now destruct (build_object' cfg d).
Qed.

Lemma keyed_names (s : ast.Schema) :
  keyed_by_name s ->
  ast.DefName <$> (map_to_list (ast.Types s)).*2
  = (map_to_list (ast.Types s)).*1.
Proof.
  unfold keyed_by_name. rewrite map_Forall_to_list.
  induction 1 as [|[k d] l Hkd _ IH]; [done|].
  rewrite !fmap_cons, IH. simpl in *. now rewrite Hkd.
Qed.

Lemma range_order_NoDup (s : ast.Schema) (order : list ast.Definition_) :
  keyed_by_name s -> range_order s order -> NoDup (ast.DefName <$> order).
Proof.
  intros Hk Hr. rewrite Hr, (keyed_names s Hk).
  apply NoDup_fst_map_to_list.
Qed.

Lemma NoDup_fmap_filter {A : Type} (f : A -> string) (P : A -> Prop)
    `{forall x, Decision (P x)} (l : list A) :
  NoDup (f <$> l) -> NoDup (f <$> filter P l).
Proof.
  intros Hnd. eapply sublist_NoDup; [exact Hnd|].
  apply fmap_sublist, sublist_filter.
Qed.

Lemma NoDup_fmap_elem {A : Type} (f : A -> string) (l : list A) (x y : A) :
  NoDup (f <$> l) -> x ∈ l -> y ∈ l -> f x = f y -> x = y.
Proof.
  intros Hnd [i Hi]%list_elem_of_lookup [j Hj]%list_elem_of_lookup Hxy.
  assert (i = j); [|congruence].
  eapply NoDup_lookup; [exact Hnd| |]; rewrite list_lookup_fmap.
  - now rewrite Hi.
  - rewrite Hj. simpl. now rewrite Hxy.
Qed.

Lemma compose_field_Ok cfg d field f :
  compose_field' cfg d field = Ok f ->
  exists tn base typ,
    ast.Name (ast.FieldType field) = Ok tn
    /\ field_base_type FindTypeFromName ToGo cfg tn
         (ast.Types (config.Schema cfg) !! tn) = Ok base
    /\ field_pointer_wrap (ast.Types (config.Schema cfg) !! tn)
         (CopyModifiersFromAst (ast.FieldType field) base) = Ok typ
    /\ f = {| Field.Name := field_name cfg d field;
              Field.Type_ := typ;
              Field.Description := ast.FieldDescription field;
              Field.Tag := json_tag (ast.FieldName field);
              Field.Gorm := field_gorm field |}.
Proof.
  unfold compose_field. intros (tn & Htn & H)%bind_Ok.
  apply bind_Ok in H as (base & Hbase & H).
  apply bind_Ok in H as (typ & Htyp & [= <-]).
  exists tn, base, typ. auto.
Qed.

Lemma gorm_tag_not_empty (column : string) : gorm_tag column <> EmptyString.
Proof. discriminate. Qed.

(** The host after the four registration loops: the calls are the
    registrations in order, and the type map has them all added. *)
Definition add_registration (tm : gmap string config.TypeMapEntry)
    (r : string * string) : gmap string config.TypeMapEntry :=
  config.Add tm r.1 r.2.

Definition call_of_registration (r : string * string) : HostCall :=
  CallAdd r.1 r.2.

Lemma fold_Models_Add {A : Type} (reg : A -> string * string) (l : list A)
    (h : Host) :
  fold_left (fun h it => Models_Add h (reg it).1 (reg it).2) l h
  = {| host_models := fold_left add_registration (reg <$> l) (host_models h);
       host_calls := host_calls h ++ (call_of_registration <$> (reg <$> l)) |}.
Proof.
  revert h. induction l as [|x l IH]; intros h; simpl.
  - rewrite app_nil_r. now destruct h.
  - rewrite IH. simpl. now rewrite <- app_assoc.
Qed.

Lemma register_spec cfg b h :
  register ToGo cfg b h
  = {| host_models :=
         fold_left add_registration (registrations ToGo cfg b) (host_models h);
       host_calls :=
         host_calls h
         ++ (call_of_registration <$> registrations ToGo cfg b) |}.
Proof.
  unfold register, registrations.
  rewrite (fold_Models_Add
    (fun it => (Enum.Name it, generated_path ToGo cfg (Enum.Name it)))).
  rewrite (fold_Models_Add
    (fun it => (Object.Name it, generated_path ToGo cfg (Object.Name it)))).
  rewrite (fold_Models_Add
    (fun it =>
       (Interface.Name it, generated_path ToGo cfg (Interface.Name it)))).
  rewrite (fold_Models_Add (fun it => (it, graphql_String))).
  simpl. rewrite !fold_left_app, !fmap_app, <- !app_assoc. reflexivity.
Qed.

Lemma TypeMap_get_Add_eq tm n g :
  config.TypeMap_get (config.Add tm n g) n
  = {| config.Model := config.Model (config.TypeMap_get tm n) ++ [g];
       config.Fields := config.Fields (config.TypeMap_get tm n) |}.
Proof. unfold config.Add, config.TypeMap_get. now rewrite lookup_insert_eq. Qed.

Lemma TypeMap_get_Add_ne tm n g n' :
  n <> n' ->
  config.TypeMap_get (config.Add tm n g) n' = config.TypeMap_get tm n'.
Proof.
  intros Hne. unfold config.Add, config.TypeMap_get.
  now rewrite lookup_insert_ne.
Qed.







(** The [switch] over the kind of a field's type does have a [default]:
    it panics. *)
Lemma field_base_type_unknown_kind cfg tn fieldDef :
  config.UserDefined (config.Models cfg) tn = false ->
  known_kind (ast.Kind fieldDef) = false ->
  field_base_type FindTypeFromName ToGo cfg tn (Some fieldDef)
  = Panic ("unknown ast type " ++ ast.Kind fieldDef)%string.
Proof.
  unfold known_kind. rewrite !orb_false_iff. intros Hu [[[Hi Ho] He] Hs].
  unfold field_base_type. now rewrite Hu, Hi, Ho, He, Hs.
Qed.

(** ** The claims *)

(** C2. After classification the Enums, Models and Interfaces of the build
    are each sorted by name ascending, and each is a rearrangement of what
    the loop over the types collected (nothing dropped, nothing added: the
    entries of the non-built-in interface, enum and non-root object types,
    in the order of the visit before the sort), Scalars being left as
    collected; and over one schema (keyed by the type names) and
    configuration, whatever order the types are visited in, a second run
    succeeds as well and yields the same three collections. *)
Theorem C2_collections_sorted_and_reproducible cfg o1 b1 :
  assemble' cfg o1 = Ok b1 ->
  (sorted_by_name Enum.Name (ModelBuild.Enums b1)
   /\ sorted_by_name Object.Name (ModelBuild.Models b1)
   /\ sorted_by_name Interface.Name (ModelBuild.Interfaces b1))
  /\ (exists b0,
        classify' cfg o1 = Ok b0
        /\ ModelBuild.Enums b1 ≡ₚ ModelBuild.Enums b0
        /\ ModelBuild.Models b1 ≡ₚ ModelBuild.Models b0
        /\ ModelBuild.Interfaces b1 ≡ₚ ModelBuild.Interfaces b0
        /\ ModelBuild.Scalars b1 = ModelBuild.Scalars b0
        /\ ModelBuild.Enums b0
           = build_enum <$> filter (fun d => sel_enum d) o1
        /\ Object.Name <$> ModelBuild.Models b0
           = ast.DefName
               <$> filter (fun d => sel_model (config.Schema cfg) d) o1
        /\ ModelBuild.Interfaces b0
           = build_interface <$> filter (fun d => sel_interface d) o1)
  /\ forall o2,
       keyed_by_name (config.Schema cfg) ->
       range_order (config.Schema cfg) o1 ->
       range_order (config.Schema cfg) o2 ->
       exists b2, assemble' cfg o2 = Ok b2
         /\ ModelBuild.Enums b2 = ModelBuild.Enums b1
         /\ ModelBuild.Models b2 = ModelBuild.Models b1
         /\ ModelBuild.Interfaces b2 = ModelBuild.Interfaces b1.
Proof.
  intros H1. pose proof (assemble_spec _ _ _ H1) as (_ & Hi & Hm & He & _ & Hok).
  split.
  { unfold sorted_by_name. rewrite Hi, Hm, He.
    repeat split; apply sort_Slice_sorted. }
  split.
  { destruct (assemble_Ok _ _ _ H1) as (b0 & Hc & Hb1). exists b0.
    split; [exact Hc|]. rewrite Hb1. clear Hi Hm He Hok. simpl.
    split; [apply (sort_Slice_perm Enum.Name)|].
    split; [apply (sort_Slice_perm Object.Name)|].
    split; [apply (sort_Slice_perm Interface.Name)|].
    split; [reflexivity|].
    unfold classify in Hc.
    apply classify_types_spec in Hc as (_ & Hi & Hm & He & _ & _).
    simpl in *. rewrite Hi, Hm, He. repeat split.
    rewrite <- list_fmap_compose. apply list_fmap_ext.
    intros i d _. simpl. apply object_of_Name. }
  intros o2 Hk Hr1 Hr2.
  assert (Hp : o2 ≡ₚ o1) by (unfold range_order in *; now rewrite Hr1, Hr2).
  pose proof (range_order_NoDup _ _ Hk Hr2) as Hnd.
  assert (Hok2 : Forall (fun d => is_Ok (build_object' cfg d))
            (filter (fun d => sel_model (config.Schema cfg) d) o2))
    by now rewrite Hp.
  destruct (classify_types_complete cfg o2
              {| ModelBuild.PackageName := config.Package (config.Model_ cfg);
                 ModelBuild.Interfaces := [];
                 ModelBuild.Models := [];
                 ModelBuild.Enums := [];
                 ModelBuild.Scalars := [] |} Hok2) as [b2 Hb2].
  exists (sort_build b2).
  assert (H2 : assemble' cfg o2 = Ok (sort_build b2)).
  { unfold assemble, classify. now rewrite Hb2. }
  split; [exact H2|].
  apply assemble_spec in H2 as (_ & Hi2 & Hm2 & He2 & _).
  rewrite Hi, Hm, He, Hi2, Hm2, He2.
  repeat split; apply sort_Slice_unique; try (now rewrite Hp);
    rewrite <- list_fmap_compose.
  - rewrite (list_fmap_ext _ ast.DefName) by done.
    now apply NoDup_fmap_filter.
  - rewrite (list_fmap_ext _ ast.DefName) by (intros i d _; simpl; apply object_of_Name).
    now apply NoDup_fmap_filter.
  - rewrite (list_fmap_ext _ ast.DefName) by done.
    now apply NoDup_fmap_filter.
Qed.

(** C3. The Query, Mutation and Subscription roots never appear in Models:
    every model is built from a type that is none of the roots, and where
    the type table is keyed by name no model bears the name of a root,
    object type or not. *)
Theorem C3_roots_not_in_models cfg order b :
  assemble' cfg order = Ok b ->
  (forall m, m ∈ ModelBuild.Models b ->
     exists d, d ∈ order /\ is_root (config.Schema cfg) d = false
       /\ build_object' cfg d = Ok m)
  /\ (keyed_by_name (config.Schema cfg) ->
      range_order (config.Schema cfg) order ->
      forall q,
        (ast.Query (config.Schema cfg) = Some q
         \/ ast.Mutation (config.Schema cfg) = Some q
         \/ ast.Subscription (config.Schema cfg) = Some q) ->
        q ∈ order ->
        ast.DefName q ∉ Object.Name <$> ModelBuild.Models b).
Proof.
  intros Hb.
  assert (Hfrom : forall m, m ∈ ModelBuild.Models b ->
     exists d, d ∈ order /\ is_root (config.Schema cfg) d = false
       /\ build_object' cfg d = Ok m).
  { intros m Hm.
    destruct (assemble_models _ _ _ _ Hb Hm) as (d & Hd & Hsel & Hbuild).
    exists d. repeat split; [done| |done].
    unfold sel_model in Hsel.
    apply andb_true_iff in Hsel as [_ Hroot]. now apply negb_true_iff. }
  split; [exact Hfrom|].
  intros Hk Hr q Hq Hin (m & Hname & Hm)%list_elem_of_fmap.
  destruct (Hfrom m Hm) as (d & Hd & Hroot & Hbuild).
  apply build_object_spec in Hbuild as (Hn & _).
  assert (d = q).
  { eapply (NoDup_fmap_elem ast.DefName order);
      [now apply (range_order_NoDup (config.Schema cfg))|done..|congruence]. }
  subst d. unfold is_root, ast.ptr_eqb in Hroot.
  destruct Hq as [Hq | [Hq | Hq]]; rewrite Hq, Pos.eqb_refl in Hroot;
    rewrite ?orb_true_r in Hroot; discriminate.
Qed.

(** C10. The Fields of every generated Object follow the declaration order
    of the schema type's fields: field descriptor number i is the composed
    schema field number i, so the serialization tags list the declared
    names in declaration order. *)
Theorem C10_fields_in_declaration_order cfg order b m :
  assemble' cfg order = Ok b -> m ∈ ModelBuild.Models b ->
  exists d, d ∈ order /\ ast.DefName d = Object.Name m
    /\ fields_composed cfg d (Object.Fields m)
    /\ Field.Tag <$> Object.Fields m
       = (fun field => json_tag (ast.FieldName field)) <$> ast.Fields d.
Proof.
  intros Hb Hm.
  destruct (assemble_models _ _ _ _ Hb Hm) as (d & Hd & _ & Hbuild).
  apply build_object_spec in Hbuild as (Hn & _ & Hf).
  exists d. repeat split; [done..|].
  unfold fields_composed in Hf.
  induction Hf as [|field f fields fs Hc _ IH]; [done|].
  rewrite !fmap_cons, IH. f_equal.
  apply compose_field_Ok in Hc as (? & ? & ? & _ & _ & _ & ->). done.
Qed.


(** The text of a persistence tag: gorm: followed, between two double
    quote characters, by column: and the column name. *)
Lemma gorm_tag_text (column : string) :
  gorm_tag column
  = ("gorm:"
     ++ String (ascii_of_nat 34)
          ("column:" ++ column ++ String (ascii_of_nat 34) EmptyString))%string.
Proof. reflexivity. Qed.

(** C6. For a field carrying the database-field directive, the persistence
    tag is the text gorm: followed, in double quotes, by column: and the
    column name, and the column name is the raw value of the directive's
    fieldName argument when there is one, and the schema field's declared
    name otherwise. *)
Theorem C6_persistence_column cfg d field f directive :
  compose_field' cfg d field = Ok f ->
  ast.DirectiveList_ForName (ast.FieldDirectives field) "isDatabaseField"
    = Some directive ->
  Field.Gorm f =
    ("gorm:"
     ++ String (ascii_of_nat 34)
          ("column:"
           ++ match ast.ArgumentList_ForName (ast.Arguments directive)
                      "fieldName" with
              | Some arg => ast.Raw (ast.ArgValue arg)
              | None => ast.FieldName field
              end
           ++ String (ascii_of_nat 34) EmptyString))%string.
Proof.
  intros (? & ? & ? & _ & _ & _ & ->)%compose_field_Ok Hd. simpl.
  unfold field_gorm. rewrite Hd. rewrite <- gorm_tag_text.
  now destruct (ast.ArgumentList_ForName _ _).
Qed.

(** C4. When the type of a field, resolved and with the modifiers of the
    schema copied onto it, is struct-shaped, and the definition of its base
    type is of kind Object or InputObject, the field composes and the type
    stored in its descriptor is the pointer to that type, whatever the
    schema says of non-null. *)
Theorem C4_struct_fields_are_pointers cfg d field tn fieldDef base :
  ast.Name (ast.FieldType field) = Ok tn ->
  ast.Types (config.Schema cfg) !! tn = Some fieldDef ->
  field_base_type FindTypeFromName ToGo cfg tn (Some fieldDef) = Ok base ->
  isStruct (CopyModifiersFromAst (ast.FieldType field) base) = true ->
  is_object_kind (ast.Kind fieldDef) = true ->
  exists f, compose_field' cfg d field = Ok f
    /\ Field.Type_ f =
       types.Pointer (CopyModifiersFromAst (ast.FieldType field) base).
Proof.
  intros Htn Hdef Hbase Hstruct Hkind.
  unfold compose_field. rewrite Htn. simpl. rewrite Hdef, Hbase. simpl.
  unfold field_pointer_wrap. rewrite Hstruct, Hkind. simpl. eauto.
Qed.

(** C5, amended. A field receives a persistence tag exactly when the field
    itself carries the database-field directive; the directives of the
    enclosing object type play no part. *)
Theorem C5_persistence_tag_iff_field_directive cfg d field f :
  compose_field' cfg d field = Ok f ->
  Field.Gorm f <> EmptyString
  <-> has_directive (ast.FieldDirectives field) "isDatabaseField".
Proof.
  intros (? & ? & ? & _ & _ & _ & ->)%compose_field_Ok. simpl.
  unfold field_gorm, has_directive.
  destruct (ast.DirectiveList_ForName _ _) as [directive|].
  - split; [eauto|]. intros _.
    destruct (ast.ArgumentList_ForName _ _); apply gorm_tag_not_empty.
  - split; [done|]. now intros [? ?].
Qed.

Lemma build_is_empty_spec b : build_is_empty b = true <-> all_empty b.
Proof.
  unfold build_is_empty, all_empty. rewrite !andb_true_iff, !Nat.eqb_eq.
  rewrite !length_zero_iff_nil. tauto.
Qed.

Lemma register_all_empty cfg b h : all_empty b -> register ToGo cfg b h = h.
Proof.
  intros (Hi & Hm & He & Hs). unfold register.
  rewrite Hi, Hm, He, Hs. reflexivity.
Qed.

(** C8. When the four collections of the build are all empty the hook makes
    no call to the host at all, so renders nothing, and returns nil;
    otherwise its last act is the call of the renderer on the build, whose
    result it returns. In particular a schema of built-in types only is not
    rendered. *)
Theorem C8_render_unless_empty cfg order :
  (forall b, assemble' cfg order = Ok b -> all_empty b ->
     MutateConfig' cfg order = Returned None (initial_host cfg))
  /\ (forall b, assemble' cfg order = Ok b -> ~ all_empty b ->
       let opts := render_options modelTemplate cfg b in
       let h := register ToGo cfg b (initial_host cfg) in
       MutateConfig' cfg order =
         Returned (Render opts)
           {| host_models := host_models h;
              host_calls := host_calls h ++ [CallRender opts] |})
  /\ (Forall (fun d => ast.BuiltIn d = true) order ->
       MutateConfig' cfg order = Returned None (initial_host cfg)).
Proof.
  assert (Hempty : forall b, assemble' cfg order = Ok b -> all_empty b ->
     MutateConfig' cfg order = Returned None (initial_host cfg)).
  { intros b Hb He. unfold MutateConfig. rewrite Hb.
    rewrite (proj2 (build_is_empty_spec b) He).
    now rewrite register_all_empty. }
  split; [exact Hempty|split].
  - intros b Hb Hne. unfold MutateConfig. rewrite Hb.
    destruct (build_is_empty b) eqn:E; [|reflexivity].
    now apply build_is_empty_spec in E.
  - intros Hbuiltin.
    assert (Hskip : forall b0, classify_types' cfg order b0 = Ok b0).
    { clear Hempty.
      induction Hbuiltin as [|d l Hd _ IH]; intros b0; simpl; [done|].
      unfold classify_type. rewrite Hd. simpl. apply IH. }
    eapply Hempty.
    + unfold assemble, classify. rewrite Hskip. reflexivity.
    + repeat split.
Qed.


End Properties.

(** ** The claims on the sample schema *)

Lemma keyed_snd (l : list ast.Definition_) :
  (map (fun d => (ast.DefName d, d)) l).*2 = l.
Proof. induction l as [|d l IH]; [done|]. simpl. f_equal. exact IH. Qed.

Lemma keyed_fst (l : list ast.Definition_) :
  (map (fun d => (ast.DefName d, d)) l).*1 = ast.DefName <$> l.
Proof. induction l as [|d l IH]; [done|]. simpl. f_equal. exact IH. Qed.

Lemma Sample_keyed_by_name : keyed_by_name Sample.schema.
Proof.
  unfold keyed_by_name. apply map_Forall_to_list.
  vm_compute. repeat constructor.
Qed.

Lemma Sample_range_order : range_order Sample.schema Sample.allTypes.
Proof.
  unfold range_order.
  change (ast.Types Sample.schema)
    with (list_to_map (map (fun d => (ast.DefName d, d)) Sample.allTypes)
            : gmap string ast.Definition_).
  rewrite map_to_list_to_map.
  - now rewrite keyed_snd.
  - rewrite keyed_fst. apply (bool_decide_unpack _). vm_compute. exact I.
Qed.

Lemma Sample_range_order_reverse :
  range_order Sample.schema (reverse Sample.allTypes).
Proof.
  unfold range_order. rewrite reverse_Permutation. apply Sample_range_order.
Qed.

Abbreviation sample_assemble :=
  (assemble Sample.FindTypeFromName Sample.CopyModifiersFromAst Sample.ToGo).
Abbreviation sample_compose_field :=
  (compose_field Sample.FindTypeFromName Sample.CopyModifiersFromAst
     Sample.ToGo).

Lemma Sample_assembled :
  sample_assemble Sample.cfg Sample.allTypes = Ok Sample.build.
Proof. vm_compute. reflexivity. Qed.

Lemma Sample_assembled_reverse :
  sample_assemble Sample.cfg (reverse Sample.allTypes) = Ok Sample.build.
Proof. vm_compute. reflexivity. Qed.

(** The sample build: models sorted by name, the fields of [User] as
    declared, [name] renamed but tagged by its declared name. *)
Example Sample_model_names :
  Object.Name <$> ModelBuild.Models Sample.build = ["Profile"; "User"].
Proof. reflexivity. Qed.

Example Sample_User_fields :
  (fun m => (fun f => (Field.Name f, Field.Tag f, Field.Gorm f))
              <$> Object.Fields m)
    <$> ModelBuild.Models Sample.build !! 1%nat
  = Some [ ("id", json_tag "id", EmptyString);
           ("FullName", json_tag "name", gorm_tag "name");
           ("email", json_tag "email", gorm_tag "mail");
           ("profile", json_tag "profile", EmptyString);
           ("friends", json_tag "friends", EmptyString);
           ("status", json_tag "status", EmptyString);
           ("seen", json_tag "seen", EmptyString) ].
Proof. reflexivity. Qed.

Example Sample_calls :
  match Sample.run Sample.cfg Sample.allTypes with
  | Returned err h => Some (err, host_calls h)
  | Panicked _ => None
  end
  = Some (None,
          [ CallAdd "Status" "myapp/model.Status";
            CallAdd "Profile" "myapp/model.Profile";
            CallAdd "User" "myapp/model.User";
            CallAdd "Node" "myapp/model.Node";
            CallAdd "Time" graphql_String;
            CallRender
              (render_options Sample.modelTemplate Sample.cfg Sample.build) ]).
Proof. vm_compute. reflexivity. Qed.

Lemma Sample_not_empty : ~ all_empty Sample.build.
Proof. intros (_ & _ & _ & H). discriminate H. Qed.

Lemma C2_witness :
  sample_assemble Sample.cfg Sample.allTypes = Ok Sample.build
  /\ (Enum.Name <$> ModelBuild.Enums Sample.build = ["Status"]
      /\ Object.Name <$> ModelBuild.Models Sample.build = ["Profile"; "User"]
      /\ Interface.Name <$> ModelBuild.Interfaces Sample.build = ["Node"])
  /\ (sorted_by_name Enum.Name (ModelBuild.Enums Sample.build)
      /\ sorted_by_name Object.Name (ModelBuild.Models Sample.build)
      /\ sorted_by_name Interface.Name (ModelBuild.Interfaces Sample.build))
  /\ (exists b0,
        classify Sample.FindTypeFromName Sample.CopyModifiersFromAst
          Sample.ToGo Sample.cfg Sample.allTypes = Ok b0
        /\ ModelBuild.Enums Sample.build ≡ₚ ModelBuild.Enums b0
        /\ ModelBuild.Models Sample.build ≡ₚ ModelBuild.Models b0
        /\ ModelBuild.Interfaces Sample.build ≡ₚ ModelBuild.Interfaces b0
        /\ ModelBuild.Scalars Sample.build = ModelBuild.Scalars b0
        /\ ModelBuild.Enums b0
           = build_enum <$> filter (fun d => sel_enum d) Sample.allTypes
        /\ Object.Name <$> ModelBuild.Models b0
           = ast.DefName
               <$> filter (fun d => sel_model (config.Schema Sample.cfg) d)
                     Sample.allTypes
        /\ ModelBuild.Interfaces b0
           = build_interface
               <$> filter (fun d => sel_interface d) Sample.allTypes)
  /\ exists b2,
       sample_assemble Sample.cfg (reverse Sample.allTypes) = Ok b2
       /\ ModelBuild.Enums b2 = ModelBuild.Enums Sample.build
       /\ ModelBuild.Models b2 = ModelBuild.Models Sample.build
       /\ ModelBuild.Interfaces b2 = ModelBuild.Interfaces Sample.build.
Proof.
  split; [exact Sample_assembled|]. split; [repeat split|].
  destruct (C2_collections_sorted_and_reproducible _ _ _ _ _ _
              Sample_assembled) as (Hsorted & Hperm & Hrep).
  split; [exact Hsorted|]. split; [exact Hperm|].
  exact (Hrep (reverse Sample.allTypes) Sample_keyed_by_name
           Sample_range_order Sample_range_order_reverse).
Defined.

Lemma Sample_Query_in : Sample.tQuery ∈ Sample.allTypes.
Proof. apply list_elem_of_further, list_elem_of_here. Qed.

Lemma C3_witness :
  sample_assemble Sample.cfg Sample.allTypes = Ok Sample.build
  /\ ast.Query Sample.schema = Some Sample.tQuery
  /\ Sample.tQuery ∈ Sample.allTypes
  /\ "Query" ∉ Object.Name <$> ModelBuild.Models Sample.build.
Proof.
  split; [exact Sample_assembled|]. split; [reflexivity|].
  split; [exact Sample_Query_in|].
  destruct (C3_roots_not_in_models _ _ _ _ _ _ Sample_assembled)
    as [_ Hroot].
  exact (Hroot Sample_keyed_by_name Sample_range_order Sample.tQuery
           (or_introl eq_refl) Sample_Query_in).
Defined.

Lemma C10_witness :
  sample_assemble Sample.cfg Sample.allTypes = Ok Sample.build
  /\ forall m, m ∈ ModelBuild.Models Sample.build ->
     exists d, d ∈ Sample.allTypes /\ ast.DefName d = Object.Name m
       /\ fields_composed Sample.FindTypeFromName
            Sample.CopyModifiersFromAst Sample.ToGo Sample.cfg d
            (Object.Fields m)
       /\ Field.Tag <$> Object.Fields m
          = (fun field => json_tag (ast.FieldName field)) <$> ast.Fields d.
Proof.
  split; [exact Sample_assembled|]. intros m Hm.
  exact (C10_fields_in_declaration_order _ _ _ _ _ _ _ Sample_assembled Hm).
Defined.


Lemma C6_witness :
  (exists f,
     sample_compose_field Sample.cfg Sample.tUser
       (Sample.fld "name" (Sample.named "String" false)
          [Sample.isDatabaseField]) = Ok f
     /\ Field.Gorm f =
        ("gorm:"
         ++ String (ascii_of_nat 34)
              ("column:name" ++ String (ascii_of_nat 34) EmptyString))%string)
  /\ (exists f,
        sample_compose_field Sample.cfg Sample.tUser
          (Sample.fld "email" (Sample.named "String" false)
             [Sample.isDatabaseField_as "mail"]) = Ok f
        /\ Field.Gorm f =
           ("gorm:"
            ++ String (ascii_of_nat 34)
                 ("column:mail"
                  ++ String (ascii_of_nat 34) EmptyString))%string).
Proof.
  split; eexists; (split; [vm_compute; reflexivity|]).
  - exact (C6_persistence_column Sample.FindTypeFromName
             Sample.CopyModifiersFromAst Sample.ToGo Sample.cfg Sample.tUser
             (Sample.fld "name" (Sample.named "String" false)
                [Sample.isDatabaseField])
             _ Sample.isDatabaseField eq_refl eq_refl).
  - exact (C6_persistence_column Sample.FindTypeFromName
             Sample.CopyModifiersFromAst Sample.ToGo Sample.cfg Sample.tUser
             (Sample.fld "email" (Sample.named "String" false)
                [Sample.isDatabaseField_as "mail"])
             _ (Sample.isDatabaseField_as "mail") eq_refl eq_refl).
Defined.

Definition sample_Profile_type : types.Type_ :=
  types.Named (config.Pkg (config.Model_ Sample.cfg)) "Profile"
    (Some types.Struct).

Lemma C4_witness :
  exists f,
    sample_compose_field Sample.cfg Sample.tUser
      (Sample.fld "profile" (Sample.named "Profile" true) []) = Ok f
    /\ Field.Type_ f = types.Pointer sample_Profile_type.
Proof.
  exact (C4_struct_fields_are_pointers Sample.FindTypeFromName
           Sample.CopyModifiersFromAst Sample.ToGo Sample.cfg Sample.tUser
           (Sample.fld "profile" (Sample.named "Profile" true) [])
           "Profile" Sample.tProfile sample_Profile_type
           eq_refl eq_refl eq_refl eq_refl eq_refl).
Defined.

(** The directive may stand at an object type. *)
Example isDatabaseField_on_object :
  (fun d => (decl_name d, decl_locations d))
    <$> source_directives InjectSourceEarly !! 1%nat
  = Some ("isDatabaseField", ["OBJECT"; "FIELD_DEFINITION"]).
Proof. reflexivity. Qed.

(** C5 as stated fails: [Profile] carries the directive, yet its field
    [bio], which does not, composes without a persistence tag. *)
Lemma C5_counterexample :
  ~ (forall cfg d field f,
       sample_compose_field cfg d field = Ok f ->
       has_directive (ast.Directives d) "isDatabaseField"
       \/ has_directive (ast.FieldDirectives field) "isDatabaseField" ->
       Field.Gorm f <> EmptyString).
Proof.
  intros H.
  refine (H Sample.cfg Sample.tProfile
            (Sample.fld "bio" (Sample.named "String" false) []) _
            eq_refl _ eq_refl).
  left. exists Sample.isDatabaseField. reflexivity.
Qed.

Lemma C5_witness :
  exists f,
    sample_compose_field Sample.cfg Sample.tProfile
      (Sample.fld "bio" (Sample.named "String" false) []) = Ok f
    /\ has_directive (ast.Directives Sample.tProfile) "isDatabaseField"
    /\ (Field.Gorm f <> EmptyString
        <-> has_directive
              (ast.FieldDirectives
                 (Sample.fld "bio" (Sample.named "String" false) []))
              "isDatabaseField").
Proof.
  eexists. split; [vm_compute; reflexivity|].
  split; [exists Sample.isDatabaseField; reflexivity|].
  exact (C5_persistence_tag_iff_field_directive Sample.FindTypeFromName
           Sample.CopyModifiersFromAst Sample.ToGo Sample.cfg Sample.tProfile
           (Sample.fld "bio" (Sample.named "String" false) []) _ eq_refl).
Defined.

Lemma C8_witness :
  Forall (fun d => ast.BuiltIn d = true) [Sample.tID; Sample.tString]
  /\ Sample.run (Sample.cfg_of [Sample.tID; Sample.tString])
       [Sample.tID; Sample.tString]
     = Returned None
         (initial_host (Sample.cfg_of [Sample.tID; Sample.tString]))
  /\ sample_assemble Sample.cfg Sample.allTypes = Ok Sample.build
  /\ ~ all_empty Sample.build
  /\ Sample.run Sample.cfg Sample.allTypes
     = let opts :=
         render_options Sample.modelTemplate Sample.cfg Sample.build in
       let h := register Sample.ToGo Sample.cfg Sample.build
                  (initial_host Sample.cfg) in
       Returned (Sample.Render opts)
         {| host_models := host_models h;
            host_calls := host_calls h ++ [CallRender opts] |}.
Proof.
  assert (Hb : Forall (fun d => ast.BuiltIn d = true)
                 [Sample.tID; Sample.tString]) by (repeat constructor).
  split; [exact Hb|]. split.
  - exact (proj2 (proj2 (C8_render_unless_empty Sample.FindTypeFromName
             Sample.CopyModifiersFromAst Sample.ToGo Sample.Render
             Sample.modelTemplate _ _)) Hb).
  - split; [exact Sample_assembled|]. split; [exact Sample_not_empty|].
    exact (proj1 (proj2 (C8_render_unless_empty Sample.FindTypeFromName
             Sample.CopyModifiersFromAst Sample.ToGo Sample.Render
             Sample.modelTemplate Sample.cfg Sample.allTypes))
             Sample.build Sample_assembled Sample_not_empty).
Defined.


(** On a schema whose only type is the non-built-in [Odd], of the kind
    FRAGMENT that is none of the known ones, the hook skips the type, calls
    nothing and returns nil. *)
Example Sample_unknown_kind_type_is_skipped :
  ast.BuiltIn Sample.tOdd = false
  /\ known_kind (ast.Kind Sample.tOdd) = false
  /\ Sample.run (Sample.cfg_of [Sample.tOdd]) [Sample.tOdd]
     = Returned None (initial_host (Sample.cfg_of [Sample.tOdd])).
Proof. repeat split. Qed.

(** The same type reached as the type of a field does abort the run. *)
Example Sample_unknown_kind_field_panics :
  Sample.run (Sample.cfg_of [Sample.tOdd; Sample.tHolder])
    [Sample.tOdd; Sample.tHolder]
  = Panicked "unknown ast type FRAGMENT".
Proof. vm_compute. reflexivity. Qed.

(** * Further properties of the hook *)

(** The names under which a build lists its entries, collection by
    collection. *)
Definition build_names (b : ModelBuild.t) : list string :=
  (Interface.Name <$> ModelBuild.Interfaces b)
  ++ (Object.Name <$> ModelBuild.Models b)
  ++ (Enum.Name <$> ModelBuild.Enums b)
  ++ ModelBuild.Scalars b.

Section Further.

Variable FindTypeFromName : string -> result types.Type_.
Variable CopyModifiersFromAst : ast.Type_ -> types.Type_ -> types.Type_.
Variable ToGo : string -> string.
Variable Render : Options.t -> option error.
Variable modelTemplate : string.

Abbreviation compose_field' :=
  (compose_field FindTypeFromName CopyModifiersFromAst ToGo).
Abbreviation compose_fields' :=
  (compose_fields FindTypeFromName CopyModifiersFromAst ToGo).
Abbreviation build_object' :=
  (build_object FindTypeFromName CopyModifiersFromAst ToGo).
Abbreviation classify_type' :=
  (classify_type FindTypeFromName CopyModifiersFromAst ToGo).
Abbreviation classify_types' :=
  (classify_types FindTypeFromName CopyModifiersFromAst ToGo).
Abbreviation classify' := (classify FindTypeFromName CopyModifiersFromAst ToGo).
Abbreviation assemble' := (assemble FindTypeFromName CopyModifiersFromAst ToGo).
Abbreviation object_of' :=
  (object_of FindTypeFromName CopyModifiersFromAst ToGo).
Abbreviation MutateConfig' :=
  (MutateConfig FindTypeFromName CopyModifiersFromAst ToGo Render
     modelTemplate).

(** The first field that does not compose decides how the loop over the
    fields ends. *)
Lemma compose_fields_fails cfg d pre field rest acc :
  Forall (fun x => is_Ok (compose_field' cfg d x)) pre ->
  ~ is_Ok (compose_field' cfg d field) ->
  match compose_field' cfg d field with
  | Ok _ => True
  | Err e => compose_fields' cfg d (pre ++ field :: rest) acc = Err e
  | Panic msg => compose_fields' cfg d (pre ++ field :: rest) acc = Panic msg
  end.
Proof.
  intros Hpre Hfail. revert acc.
  induction Hpre as [|x pre Hx _ IH]; intros acc; simpl.
  - destruct (compose_field' cfg d field); simpl; done.
  - destruct (compose_field' cfg d x) as [f| |]; simpl in *; [|done..].
    apply IH.
Qed.

Lemma compose_fields_is_Ok cfg d fields acc :
  is_Ok (compose_fields' cfg d fields acc)
  <-> Forall (fun x => is_Ok (compose_field' cfg d x)) fields.
Proof.
  revert acc. induction fields as [|x fields IH]; intros acc; simpl.
  - split; [constructor|done].
  - rewrite Forall_cons.
    destruct (compose_field' cfg d x) as [f| |]; simpl; [|tauto..].
    rewrite IH. tauto.
Qed.

Lemma build_object_is_Ok cfg d :
  is_Ok (build_object' cfg d)
  <-> Forall (fun x => is_Ok (compose_field' cfg d x)) (ast.Fields d).
Proof.
  rewrite <- (compose_fields_is_Ok cfg d (ast.Fields d) []).
  unfold build_object.
  now destruct (compose_fields' cfg d (ast.Fields d) []).
Qed.

(** A failure of the loop over the types is the failure of the object of
    one of the types it visits. *)
Lemma classify_types_fails cfg order b :
  match classify_types' cfg order b with
  | Ok _ => True
  | Err e =>
      exists d, d ∈ order /\ sel_model (config.Schema cfg) d = true
        /\ build_object' cfg d = Err e
  | Panic msg =>
      exists d, d ∈ order /\ sel_model (config.Schema cfg) d = true
        /\ build_object' cfg d = Panic msg
  end.
Proof.
  revert b. induction order as [|d order IH]; intros b; simpl; [done|].
  rewrite classify_type_cases.
  assert (Hnext : forall b1,
    match classify_types' cfg order b1 with
    | Ok _ => True
    | Err e =>
        exists d0, d0 ∈ d :: order /\ sel_model (config.Schema cfg) d0 = true
          /\ build_object' cfg d0 = Err e
    | Panic msg =>
        exists d0, d0 ∈ d :: order /\ sel_model (config.Schema cfg) d0 = true
          /\ build_object' cfg d0 = Panic msg
    end).
  { intros b1. specialize (IH b1).
    destruct (classify_types' cfg order b1); [done|..];
      destruct IH as (d0 & Hd0 & H); exists d0;
      (split; [now apply list_elem_of_further|exact H]). }
  destruct (sel_interface d); simpl; [apply Hnext|].
  destruct (sel_model (config.Schema cfg) d) eqn:Em.
  - destruct (build_object' cfg d) as [m| |] eqn:Hm; simpl;
      [apply Hnext|exists d..]; (split; [apply list_elem_of_here|done]).
  - destruct (sel_enum d); simpl; [apply Hnext|].
    destruct (sel_scalar d); simpl; apply Hnext.
Qed.

Lemma build_object_fails cfg d :
  match build_object' cfg d with
  | Ok _ => True
  | Err e => exists field, field ∈ ast.Fields d
               /\ compose_field' cfg d field = Err e
  | Panic msg => exists field, field ∈ ast.Fields d
                   /\ compose_field' cfg d field = Panic msg
  end.
Proof.
  unfold build_object. generalize (@nil Field.t).
  induction (ast.Fields d) as [|x fields IH]; intros acc; simpl; [done|].
  destruct (compose_field' cfg d x) as [f| |] eqn:Hx; simpl.
  - specialize (IH (acc ++ [f])).
    destruct (compose_fields' cfg d fields (acc ++ [f])); simpl in *;
      [done|..]; destruct IH as (field & Hin & H); exists field;
      (split; [now apply list_elem_of_further|exact H]).
  - exists x. split; [apply list_elem_of_here|done].
  - exists x. split; [apply list_elem_of_here|done].
Qed.

(** X1. The types are classified without failure exactly when every
    field of every non-built-in, non-root object or input type composes;
    the fields of built-in types, of the roots and of the other kinds are
    never looked at. *)
Theorem assemble_succeeds_iff_fields_compose cfg order :
  is_Ok (assemble' cfg order)
  <-> forall d field,
        d ∈ order -> sel_model (config.Schema cfg) d = true ->
        field ∈ ast.Fields d -> is_Ok (compose_field' cfg d field).
Proof.
  split.
  - intros H d field Hd Hsel Hf.
    destruct (assemble' cfg order) as [b| |] eqn:Hb; [|done..].
    apply assemble_spec in Hb as (_ & _ & _ & _ & _ & Hok).
    rewrite Forall_forall in Hok.
    assert (Hobj : is_Ok (build_object' cfg d)).
    { apply Hok, list_elem_of_filter. split; [now apply Is_true_true|done]. }
    apply build_object_is_Ok in Hobj. rewrite Forall_forall in Hobj. auto.
  - intros H.
    destruct (classify_types_complete FindTypeFromName CopyModifiersFromAst
                ToGo cfg order
                {| ModelBuild.PackageName := config.Package (config.Model_ cfg);
                   ModelBuild.Interfaces := [];
                   ModelBuild.Models := [];
                   ModelBuild.Enums := [];
                   ModelBuild.Scalars := [] |}) as [b Hb].
    + apply Forall_forall. intros d [Hsel Hd]%list_elem_of_filter.
      apply build_object_is_Ok, Forall_forall. intros field Hf.
      apply (H d field Hd); [now apply Is_true_true|done].
    + unfold assemble, classify. now rewrite Hb.
Qed.

(** X2. An error returned by the hook has one of two origins. Either the
    binder refused the user's model of the type of a field of an object
    type, and then the host was not touched: nothing was registered and
    nothing rendered. Or the types were classified and registered and the
    error is the renderer's. *)
Theorem returned_error_origin cfg order e h :
  MutateConfig' cfg order = Returned (Some e) h ->
  (h = initial_host cfg
   /\ exists d field,
        d ∈ order /\ sel_model (config.Schema cfg) d = true
        /\ field ∈ ast.Fields d /\ compose_field' cfg d field = Err e)
  \/ (exists b,
        assemble' cfg order = Ok b
        /\ Render (render_options modelTemplate cfg b) = Some e
        /\ last (host_calls h)
           = Some (CallRender (render_options modelTemplate cfg b))).
Proof.
  unfold MutateConfig.
  destruct (assemble' cfg order) as [b|e'|msg] eqn:Hb; [| |done].
  - destruct (build_is_empty b); [done|]. intros [= He <-]. right.
    exists b. repeat split; [done|]. simpl. apply last_snoc.
  - intros [= -> <-]. left. split; [done|].
    unfold assemble, classify in Hb.
    pose proof (classify_types_fails cfg order
      {| ModelBuild.PackageName := config.Package (config.Model_ cfg);
         ModelBuild.Interfaces := [];
         ModelBuild.Models := [];
         ModelBuild.Enums := [];
         ModelBuild.Scalars := [] |}) as Hf.
    destruct (classify_types' cfg order _) as [b|e'|msg]; [done| |done].
    injection Hb as ->. destruct Hf as (d & Hd & Hsel & Hobj).
    pose proof (build_object_fails cfg d) as Hfield. rewrite Hobj in Hfield.
    destruct Hfield as (field & Hin & Hc). exists d, field. auto.
Qed.

(** X3. When the hook panics, the composition of a field of an object type
    panicked, with the same message: the type of the field is missing from
    the schema, is of no known kind, or the binder itself panicked. *)
Theorem panic_origin cfg order msg :
  MutateConfig' cfg order = Panicked msg ->
  exists d field,
    d ∈ order /\ sel_model (config.Schema cfg) d = true
    /\ field ∈ ast.Fields d /\ compose_field' cfg d field = Panic msg.
Proof.
  unfold MutateConfig.
  destruct (assemble' cfg order) as [b|e'|msg'] eqn:Hb;
    [destruct (build_is_empty b); done|done|].
  intros [= ->]. unfold assemble, classify in Hb.
  pose proof (classify_types_fails cfg order
    {| ModelBuild.PackageName := config.Package (config.Model_ cfg);
       ModelBuild.Interfaces := [];
       ModelBuild.Models := [];
       ModelBuild.Enums := [];
       ModelBuild.Scalars := [] |}) as Hf.
  destruct (classify_types' cfg order _) as [b|e'|msg']; [done..|].
  injection Hb as ->. destruct Hf as (d & Hd & Hsel & Hobj).
  pose proof (build_object_fails cfg d) as Hfield. rewrite Hobj in Hfield.
  destruct Hfield as (field & Hin & Hc). exists d, field. auto.
Qed.

(** X4. Within one object type the first field that fails ends the loop:
    its error, or its panic, is that of the object, whatever the fields
    after it would have done. *)
Theorem first_failing_field_decides cfg d pre field rest :
  ast.Fields d = pre ++ field :: rest ->
  Forall (fun x => is_Ok (compose_field' cfg d x)) pre ->
  (forall e, compose_field' cfg d field = Err e ->
             build_object' cfg d = Err e)
  /\ (forall msg, compose_field' cfg d field = Panic msg ->
                  build_object' cfg d = Panic msg).
Proof.
  intros Hfields Hpre. unfold build_object. rewrite Hfields.
  split; intros r Hr;
    pose proof (compose_fields_fails cfg d pre field rest [] Hpre) as H;
    rewrite Hr in H; rewrite H by (simpl; tauto); done.
Qed.

Lemma isStruct_Pointer (t : types.Type_) : isStruct (types.Pointer t) = false.
Proof. reflexivity. Qed.

(** X5. A composed field whose type is defined in the schema as an Object
    or InputObject never holds a struct by value: the type stored in its
    descriptor is not struct-shaped. *)
Theorem object_fields_never_by_value cfg d field tn fieldDef f :
  ast.Name (ast.FieldType field) = Ok tn ->
  ast.Types (config.Schema cfg) !! tn = Some fieldDef ->
  is_object_kind (ast.Kind fieldDef) = true ->
  compose_field' cfg d field = Ok f ->
  isStruct (Field.Type_ f) = false.
Proof.
  intros Htn Hdef Hkind (tn' & base & typ & Htn' & _ & Hwrap & ->)%compose_field_Ok.
  rewrite Htn in Htn'. injection Htn' as <-. rewrite Hdef in Hwrap. simpl.
  unfold field_pointer_wrap in Hwrap. rewrite Hkind in Hwrap.
  destruct (isStruct (CopyModifiersFromAst (ast.FieldType field) base)) eqn:E;
    injection Hwrap as <-; [reflexivity|exact E].
Qed.

(** X6. Only fields of object kinds are wrapped: when the type of the field
    is defined with any other kind, the field composes with exactly the
    type that the copy of the modifiers gave, struct-shaped or not. *)
Theorem other_kinds_keep_their_type cfg d field tn fieldDef base :
  ast.Name (ast.FieldType field) = Ok tn ->
  ast.Types (config.Schema cfg) !! tn = Some fieldDef ->
  is_object_kind (ast.Kind fieldDef) = false ->
  field_base_type FindTypeFromName ToGo cfg tn (Some fieldDef) = Ok base ->
  exists f, compose_field' cfg d field = Ok f
    /\ Field.Type_ f = CopyModifiersFromAst (ast.FieldType field) base.
Proof.
  intros Htn Hdef Hkind Hbase.
  unfold compose_field. rewrite Htn. simpl. rewrite Hdef, Hbase. simpl.
  unfold field_pointer_wrap. rewrite Hkind.
  destruct (isStruct _); simpl; eauto.
Qed.

(** X7. A field whose type is a Scalar of the schema without a user model
    always composes, and its base type is the type named string of the
    model package, never a generated name. *)
Theorem scalar_field_is_string cfg d field tn fieldDef :
  ast.Name (ast.FieldType field) = Ok tn ->
  config.UserDefined (config.Models cfg) tn = false ->
  ast.Types (config.Schema cfg) !! tn = Some fieldDef ->
  ast.Kind fieldDef = ast.Scalar ->
  exists f, compose_field' cfg d field = Ok f
    /\ Field.Type_ f =
       CopyModifiersFromAst (ast.FieldType field)
         (types.Named (config.Pkg (config.Model_ cfg)) "string" None).
Proof.
  intros Htn Hu Hdef Hkind.
  unfold compose_field. rewrite Htn. simpl. rewrite Hdef.
  unfold field_base_type. rewrite Hu, Hkind. simpl.
  unfold field_pointer_wrap. rewrite Hkind.
  destruct (isStruct _); simpl; eauto.
Qed.

(** X8. When the type name of a field has a user model, the binder decides
    on the first model listed, whatever the schema says of the type: its
    error is the field's error, and a type it finds that is not
    struct-shaped after the copy of the modifiers is stored as it is, even
    for a type name the schema does not define. *)
Theorem user_model_decides cfg d field tn entry m ms :
  ast.Name (ast.FieldType field) = Ok tn ->
  config.Models cfg !! tn = Some entry ->
  config.Model entry = m :: ms ->
  (forall e, FindTypeFromName m = Err e -> compose_field' cfg d field = Err e)
  /\ (forall base,
        FindTypeFromName m = Ok base ->
        isStruct (CopyModifiersFromAst (ast.FieldType field) base) = false ->
        exists f, compose_field' cfg d field = Ok f
          /\ Field.Type_ f = CopyModifiersFromAst (ast.FieldType field) base).
Proof.
  intros Htn Hentry Hmodel.
  assert (Hbase : field_base_type FindTypeFromName ToGo cfg tn
                    (ast.Types (config.Schema cfg) !! tn)
                  = FindTypeFromName m).
  { unfold field_base_type, config.UserDefined, config.TypeMap_get.
    rewrite Hentry. simpl. rewrite Hmodel. reflexivity. }
  split.
  - intros e He. unfold compose_field. rewrite Htn. simpl.
    rewrite Hbase, He. reflexivity.
  - intros base Hb Hs. unfold compose_field. rewrite Htn. simpl.
    rewrite Hbase, Hb. simpl. unfold field_pointer_wrap. rewrite Hs.
    simpl. eauto.
Qed.

(** X9. A field whose type name has no user model and no definition in the
    schema makes the composition panic on the nil definition. *)
Theorem undefined_field_type_panics cfg d field tn :
  ast.Name (ast.FieldType field) = Ok tn ->
  config.UserDefined (config.Models cfg) tn = false ->
  ast.Types (config.Schema cfg) !! tn = None ->
  compose_field' cfg d field = Panic nil_dereference.
Proof.
  intros Htn Hu Hdef. unfold compose_field. rewrite Htn. simpl.
  rewrite Hdef. unfold field_base_type. now rewrite Hu.
Qed.

(** X10. A field whose type is defined with a kind that is none of the
    known ones, and has no user model, makes the composition panic with
    the message naming the kind. *)
Theorem unknown_kind_field_panics cfg d field tn fieldDef :
  ast.Name (ast.FieldType field) = Ok tn ->
  config.UserDefined (config.Models cfg) tn = false ->
  ast.Types (config.Schema cfg) !! tn = Some fieldDef ->
  known_kind (ast.Kind fieldDef) = false ->
  compose_field' cfg d field
  = Panic ("unknown ast type " ++ ast.Kind fieldDef)%string.
Proof.
  intros Htn Hu Hdef Hk. unfold compose_field. rewrite Htn. simpl.
  rewrite Hdef.
  now rewrite (field_base_type_unknown_kind FindTypeFromName ToGo
                 cfg tn fieldDef Hu Hk).
Qed.

(** X11. Without a configured name the descriptor bears the declared name:
    when the type map has no entry for the object type, or the entry has
    none for the field, the name of the composed field is the schema
    field's. *)
Theorem unconfigured_field_keeps_its_name cfg d field f :
  (config.Models cfg !! ast.DefName d = None
   \/ exists entry,
        config.Models cfg !! ast.DefName d = Some entry
        /\ config.Fields entry !! ast.FieldName field = None) ->
  compose_field' cfg d field = Ok f ->
  Field.Name f = ast.FieldName field.
Proof.
  intros Hcfg (? & ? & ? & _ & _ & _ & ->)%compose_field_Ok. simpl.
  unfold field_name, name_override, config.Fields_get, config.TypeMap_get.
  destruct Hcfg as [-> | (entry & -> & Hf)]; simpl; [reflexivity|].
  now rewrite Hf.
Qed.

Lemma sel_model_nonbuiltin s d :
  sel_model s d = true <->
  ast.BuiltIn d = false /\ is_object_kind (ast.Kind d) = true
  /\ is_root s d = false.
Proof.
  clear FindTypeFromName CopyModifiersFromAst ToGo Render modelTemplate.
  unfold sel_model. rewrite !andb_true_iff, !negb_true_iff. tauto.
Qed.

(** X12. Every non-built-in type of a known kind is emitted, save the
    roots: an interface or union has its entry in Interfaces, an enum in
    Enums, a scalar its name in Scalars, and an object or input type that
    is no root has its object in Models. *)
Theorem every_type_is_emitted cfg order b d :
  assemble' cfg order = Ok b -> d ∈ order -> ast.BuiltIn d = false ->
  (is_interface_kind (ast.Kind d) = true ->
   build_interface d ∈ ModelBuild.Interfaces b)
  /\ (is_object_kind (ast.Kind d) = true ->
      is_root (config.Schema cfg) d = false ->
      exists m, m ∈ ModelBuild.Models b /\ build_object' cfg d = Ok m)
  /\ (ast.Kind d = ast.Enum -> build_enum d ∈ ModelBuild.Enums b)
  /\ (ast.Kind d = ast.Scalar -> ast.DefName d ∈ ModelBuild.Scalars b).
Proof.
  clear Render modelTemplate.
  intros (_ & Hi & Hm & He & Hs & Hok)%assemble_spec Hd Hb.
  rewrite Hi, Hm, He, Hs. repeat split.
  - intros Hk. rewrite sort_Slice_perm. apply list_elem_of_fmap_2.
    apply list_elem_of_filter. split; [|done].
    unfold sel_interface. now rewrite Hb, Hk.
  - intros Hk Hroot.
    assert (Hsel : d ∈ filter
              (fun d => sel_model (config.Schema cfg) d) order).
    { apply list_elem_of_filter. split; [|done].
      apply Is_true_true, sel_model_nonbuiltin. auto. }
    rewrite Forall_forall in Hok. specialize (Hok d Hsel).
    exists (object_of' cfg d). split.
    + rewrite sort_Slice_perm. now apply list_elem_of_fmap_2.
    + unfold object_of. now destruct (build_object' cfg d).
  - intros Hk. rewrite sort_Slice_perm. apply list_elem_of_fmap_2.
    apply list_elem_of_filter. split; [|done].
    unfold sel_enum. now rewrite Hb, Hk.
  - intros Hk. apply list_elem_of_fmap_2.
    apply list_elem_of_filter. split; [|done].
    unfold sel_scalar. now rewrite Hb, Hk.
Qed.

(** The names of a build come from the visited types that are not
    built-in. *)
Lemma emitted_names_are_schema_types_aux cfg order b n :
  assemble' cfg order = Ok b -> n ∈ build_names b ->
  exists d, d ∈ order /\ ast.BuiltIn d = false /\ ast.DefName d = n.
Proof.
  clear Render modelTemplate.
  intros (_ & Hi & Hm & He & Hs & _)%assemble_spec.
  unfold build_names. rewrite Hi, Hm, He, Hs, !sort_Slice_perm.
  rewrite <- !list_fmap_compose, !elem_of_app.
  intros [H|[H|[H|H]]];
    apply list_elem_of_fmap in H as (d & -> & [Hsel Hd]%list_elem_of_filter);
    apply Is_true_true in Hsel; exists d; (split; [exact Hd|]).
  - unfold sel_interface in Hsel.
    apply andb_true_iff in Hsel as [Hb%negb_true_iff _]. auto.
  - apply sel_model_nonbuiltin in Hsel as (Hb & _ & _).
    split; [done|]. simpl. symmetry. apply object_of_Name.
  - unfold sel_enum in Hsel.
    apply andb_true_iff in Hsel as [Hb%negb_true_iff _]. auto.
  - unfold sel_scalar in Hsel.
    apply andb_true_iff in Hsel as [Hb%negb_true_iff _]. auto.
Qed.

(** X13. Nothing is generated for a built-in type or out of nothing: every
    name listed in one of the four collections is the name of a visited
    type that is not built-in and is of a known kind. *)
Theorem emitted_names_are_schema_types cfg order b n :
  assemble' cfg order = Ok b -> n ∈ build_names b ->
  exists d, d ∈ order /\ ast.BuiltIn d = false
    /\ known_kind (ast.Kind d) = true /\ ast.DefName d = n.
Proof.
  clear Render modelTemplate.
  intros (_ & Hi & Hm & He & Hs & _)%assemble_spec.
  unfold build_names. rewrite Hi, Hm, He, Hs, !sort_Slice_perm.
  rewrite <- !list_fmap_compose, !elem_of_app.
  intros [H|[H|[H|H]]];
    apply list_elem_of_fmap in H as (d & -> & [Hsel Hd]%list_elem_of_filter);
    apply Is_true_true in Hsel; exists d; (split; [exact Hd|]);
    unfold known_kind.
  - unfold sel_interface in Hsel.
    apply andb_true_iff in Hsel as [Hb%negb_true_iff Hk].
    rewrite Hk. auto.
  - apply sel_model_nonbuiltin in Hsel as (Hb & Hk & _).
    rewrite Hk, orb_true_r. repeat split; [done|].
    simpl. symmetry. apply object_of_Name.
  - unfold sel_enum in Hsel.
    apply andb_true_iff in Hsel as [Hb%negb_true_iff Hk].
    rewrite Hk, !orb_true_r. auto.
  - unfold sel_scalar in Hsel.
    apply andb_true_iff in Hsel as [Hb%negb_true_iff Hk].
    rewrite Hk, !orb_true_r. auto.
Qed.

(** X14. The values of a generated enum are those the schema declares, in
    the order of the declaration: the names of the collection are sorted,
    the values of an enum are not. *)
Theorem enum_values_in_declaration_order cfg order b e :
  assemble' cfg order = Ok b -> e ∈ ModelBuild.Enums b ->
  exists d, d ∈ order /\ ast.Kind d = ast.Enum
    /\ Enum.Name e = ast.DefName d
    /\ Enum.Description e = ast.Description d
    /\ EnumValue.Name <$> Enum.Values e
       = ast.ValueName <$> ast.EnumValues d.
Proof.
  intros (_ & _ & _ & He & _)%assemble_spec. rewrite He, sort_Slice_perm.
  intros (d & -> & [Hsel Hd]%list_elem_of_filter)%list_elem_of_fmap.
  exists d. split; [exact Hd|]. split.
  { apply Is_true_true in Hsel. unfold sel_enum in Hsel.
    apply andb_true_iff in Hsel as [_ Hk]. now apply String.eqb_eq. }
  repeat split. simpl.
  induction (ast.EnumValues d) as [|v l IH]; [done|].
  simpl. f_equal. exact IH.
Qed.

(** X15. Scalars are not sorted: they are listed in the order in which the
    types are visited. Visiting the same types in another order gives the
    same scalars, possibly in another order; visiting them in the reverse
    order gives the list reversed. *)
Theorem scalars_follow_visit_order cfg o1 b1 :
  assemble' cfg o1 = Ok b1 ->
  ModelBuild.Scalars b1 = ast.DefName <$> filter (fun d => sel_scalar d) o1
  /\ (forall o2 b2, o1 ≡ₚ o2 -> assemble' cfg o2 = Ok b2 ->
        ModelBuild.Scalars b2 ≡ₚ ModelBuild.Scalars b1)
  /\ (forall b2, assemble' cfg (reverse o1) = Ok b2 ->
        ModelBuild.Scalars b2 = reverse (ModelBuild.Scalars b1)).
Proof.
  intros (_ & _ & _ & _ & Hs & _)%assemble_spec. rewrite Hs.
  split; [done|]. split.
  - intros o2 b2 Hp (_ & _ & _ & _ & Hs2 & _)%assemble_spec.
    now rewrite Hs2, Hp.
  - intros b2 (_ & _ & _ & _ & Hs2 & _)%assemble_spec.
    now rewrite Hs2, filter_reverse, fmap_reverse.
Qed.

(** What the registrations add to the entry of one name. *)
Lemma fold_add_registration_entry regs tm n :
  config.TypeMap_get (fold_left add_registration regs tm) n
  = {| config.Model :=
         config.Model (config.TypeMap_get tm n)
         ++ (filter (fun r => r.1 = n) regs).*2;
       config.Fields := config.Fields (config.TypeMap_get tm n) |}.
Proof.
  revert tm. induction regs as [|[n' g'] regs IH]; intros tm.
  { simpl. rewrite app_nil_r. now destruct (config.TypeMap_get tm n). }
  simpl. rewrite IH. rewrite filter_cons. simpl.
  destruct (decide (n' = n)) as [->|Hne]; unfold add_registration; simpl.
  - rewrite TypeMap_get_Add_eq. simpl. now rewrite <- app_assoc.
  - now rewrite TypeMap_get_Add_ne.
Qed.

Lemma fold_add_registration_lookup regs tm n :
  n ∉ regs.*1 -> fold_left add_registration regs tm !! n = tm !! n.
Proof.
  revert tm. induction regs as [|[n' g'] regs IH]; intros tm Hn; [done|].
  rewrite fmap_cons, not_elem_of_cons in Hn. destruct Hn as [Hne Hn].
  simpl. rewrite (IH _ Hn). unfold add_registration, config.Add. simpl.
  now apply lookup_insert_ne.
Qed.

Lemma UserDefined_get tm n :
  config.UserDefined tm n
  = negb (Nat.eqb (length (config.Model (config.TypeMap_get tm n))) 0).
Proof.
  unfold config.UserDefined, config.TypeMap_get. now destruct (tm !! n).
Qed.

(** The type map that the hook leaves: the one it found, or the one it
    found with the registrations of the build added. *)
Lemma MutateConfig_models cfg order err h :
  MutateConfig' cfg order = Returned err h ->
  (is_Ok (assemble' cfg order) -> False) /\ h = initial_host cfg
  \/ exists b, assemble' cfg order = Ok b
       /\ host_models h
          = fold_left add_registration (registrations ToGo cfg b)
              (config.Models cfg).
Proof.
  unfold MutateConfig.
  destruct (assemble' cfg order) as [b|e|msg]; [| |done].
  - rewrite register_spec. intros H. right. exists b. split; [done|].
    destruct (build_is_empty b); injection H as _ <-; reflexivity.
  - intros [= _ <-]. left. auto.
Qed.

Lemma build_names_registered cfg b n :
  n ∈ build_names b <-> n ∈ (registrations ToGo cfg b).*1.
Proof.
  unfold build_names, registrations.
  rewrite !fmap_app, <- !list_fmap_compose, !elem_of_app.
  change (fst ∘ (fun it : string => (it, graphql_String))) with (@id string).
  rewrite list_fmap_id.
  split; intros [H|[H|[H|H]]];
    [right; right; left|right; left|left|right; right; right
    |right; right; left|right; left|left|right; right; right]; exact H.
Qed.

(** X16. Once the hook has returned after classifying the types, every
    name it generated counts as user-defined in the host's type map, so
    that later passes resolve the type by that name. *)
Theorem generated_names_are_user_defined cfg order b err h n :
  assemble' cfg order = Ok b ->
  MutateConfig' cfg order = Returned err h ->
  n ∈ build_names b ->
  config.UserDefined (host_models h) n = true.
Proof.
  intros Hb Hrun Hn.
  apply MutateConfig_models in Hrun as [[Hfail _]|(b' & Hb' & ->)].
  { exfalso. apply Hfail. now rewrite Hb. }
  rewrite Hb in Hb'. injection Hb' as <-.
  rewrite UserDefined_get, fold_add_registration_entry. simpl.
  apply (build_names_registered cfg) in Hn.
  apply list_elem_of_fmap in Hn as ([n' g] & -> & Hin).
  assert (Hg : g ∈ (filter (fun r : string * string => r.1 = (n', g).1)
                      (registrations ToGo cfg b)).*2).
  { apply (list_elem_of_fmap_2 snd _ (n', g)).
    apply list_elem_of_filter. split; [done|exact Hin]. }
  rewrite length_app. simpl in *.
  destruct ((filter _ (registrations ToGo cfg b)).*2) as [|x l];
    [now apply elem_of_nil in Hg|].
  simpl. rewrite Nat.add_succ_r. reflexivity.
Qed.

(** X17. Registration only appends: whatever the hook returns, every entry
    of the type map keeps its configured field names, the models that were
    listed for a name stay first in its list, and a name that no visited
    non-built-in type bears keeps its entry, or its absence. *)
Theorem registration_only_appends cfg order err h n :
  MutateConfig' cfg order = Returned err h ->
  config.Fields (config.TypeMap_get (host_models h) n)
  = config.Fields (config.TypeMap_get (config.Models cfg) n)
  /\ config.Model (config.TypeMap_get (config.Models cfg) n)
     `prefix_of` config.Model (config.TypeMap_get (host_models h) n)
  /\ ((forall d, d ∈ order -> ast.BuiltIn d = false -> ast.DefName d <> n) ->
      host_models h !! n = config.Models cfg !! n).
Proof.
  intros [[_ ->]|(b & Hb & ->)]%MutateConfig_models; [done|].
  rewrite fold_add_registration_entry. simpl.
  split; [done|]. split; [now apply prefix_app_r|].
  intros Hfresh. apply fold_add_registration_lookup.
  intros Hn%(build_names_registered cfg).
  destruct (emitted_names_are_schema_types_aux cfg order b n Hb Hn)
    as (d & Hd & Hbuiltin & Hname).
  exact (Hfresh d Hd Hbuiltin Hname).
Qed.

Lemma string_length_append (a b : string) :
  String.length (a ++ b)%string = (String.length a + String.length b)%nat.
Proof. induction a as [|x a IH]; simpl; [reflexivity|]. now rewrite IH. Qed.

Lemma string_append_inj_r (a b c : string) :
  (a ++ c)%string = (b ++ c)%string -> a = b.
Proof.
  revert b. induction a as [|x a IH]; intros [|y b]; simpl; intros H.
  - reflexivity.
  - exfalso. apply (f_equal String.length) in H.
    rewrite !string_length_append in H. simpl in H.
    rewrite ?string_length_append in H. lia.
  - exfalso. apply (f_equal String.length) in H.
    rewrite !string_length_append in H. simpl in H.
    rewrite ?string_length_append in H. lia.
  - injection H as -> H. f_equal. now apply IH.
Qed.

Lemma json_tag_inj (a b : string) : json_tag a = json_tag b -> a = b.
Proof.
  unfold json_tag, dquote. simpl. intros [= H].
  change ((a ++ String (ascii_of_nat 34) EmptyString)%string
          = (b ++ String (ascii_of_nat 34) EmptyString)%string) in H.
  now apply string_append_inj_r in H.
Qed.

(** X18. The serialization tags of a model tell its fields apart: when
    the fields of the type are declared under pairwise distinct names, the
    tags of the object are pairwise distinct, whatever names the
    configuration gives the descriptors. *)
Theorem tags_are_distinct cfg d m :
  build_object' cfg d = Ok m ->
  NoDup (ast.FieldName <$> ast.Fields d) ->
  NoDup (Field.Tag <$> Object.Fields m).
Proof.
  intros (_ & _ & Hf)%build_object_spec.
  assert (Htags : Field.Tag <$> Object.Fields m
                  = json_tag <$> (ast.FieldName <$> ast.Fields d)).
  { unfold fields_composed in Hf.
    induction Hf as [|field f fields fs Hc _ IH]; [done|].
    rewrite !fmap_cons, IH. f_equal.
    apply compose_field_Ok in Hc as (? & ? & ? & _ & _ & _ & ->). done. }
  intros Hnd. rewrite Htags. apply NoDup_fmap_2; [|exact Hnd].
  intros a b. apply json_tag_inj.
Qed.

(** Over one schema keyed by name, a second visit of the types in another
    order classifies them as well, with the same sorted collections. *)
Lemma assemble_permuted cfg o1 o2 b1 :
  o1 ≡ₚ o2 -> NoDup (ast.DefName <$> o1) ->
  assemble' cfg o1 = Ok b1 ->
  exists b2, assemble' cfg o2 = Ok b2
    /\ ModelBuild.PackageName b2 = ModelBuild.PackageName b1
    /\ ModelBuild.Interfaces b2 = ModelBuild.Interfaces b1
    /\ ModelBuild.Models b2 = ModelBuild.Models b1
    /\ ModelBuild.Enums b2 = ModelBuild.Enums b1.
Proof.
  intros Hp Hnd (Hn & Hi & Hm & He & _ & Hok)%assemble_spec.
  assert (Hok2 : Forall (fun d => is_Ok (build_object' cfg d))
            (filter (fun d => sel_model (config.Schema cfg) d) o2))
    by now rewrite <- Hp.
  destruct (classify_types_complete FindTypeFromName CopyModifiersFromAst
              ToGo cfg o2
              {| ModelBuild.PackageName := config.Package (config.Model_ cfg);
                 ModelBuild.Interfaces := [];
                 ModelBuild.Models := [];
                 ModelBuild.Enums := [];
                 ModelBuild.Scalars := [] |} Hok2) as [b2 Hb2].
  exists (sort_build b2).
  assert (H2 : assemble' cfg o2 = Ok (sort_build b2)).
  { unfold assemble, classify. now rewrite Hb2. }
  split; [exact H2|].
  apply assemble_spec in H2 as (Hn2 & Hi2 & Hm2 & He2 & _).
  rewrite Hn, Hi, Hm, He, Hn2, Hi2, Hm2, He2.
  split; [done|].
  repeat split; symmetry; apply sort_Slice_unique; try (now rewrite Hp);
    rewrite <- list_fmap_compose.
  - rewrite (list_fmap_ext _ ast.DefName) by done.
    now apply NoDup_fmap_filter.
  - rewrite (list_fmap_ext _ ast.DefName)
      by (intros i d _; simpl; apply object_of_Name).
    now apply NoDup_fmap_filter.
  - rewrite (list_fmap_ext _ ast.DefName) by done.
    now apply NoDup_fmap_filter.
Qed.

(** X19. Over one schema, keyed by the names of its types, and one
    configuration, two runs that visit the types in different orders do
    the same thing (same calls to the host, same type map, same result),
    provided that the first classifies the types without failure and that
    both meet the non-built-in scalars in the same order. *)
Theorem run_reproducible_up_to_scalar_order cfg o1 o2 :
  keyed_by_name (config.Schema cfg) ->
  range_order (config.Schema cfg) o1 ->
  range_order (config.Schema cfg) o2 ->
  filter (fun d => sel_scalar d) o1 = filter (fun d => sel_scalar d) o2 ->
  is_Ok (assemble' cfg o1) ->
  MutateConfig' cfg o2 = MutateConfig' cfg o1.
Proof.
  intros Hk Hr1 Hr2 Hsc Hok.
  destruct (assemble' cfg o1) as [b1| |] eqn:Hb1; [|done..].
  assert (Hp : o1 ≡ₚ o2) by (unfold range_order in *; now rewrite Hr1, Hr2).
  destruct (assemble_permuted cfg o1 o2 b1 Hp
              (range_order_NoDup _ _ Hk Hr1) Hb1)
    as (b2 & Hb2 & Hn & Hi & Hm & He).
  assert (Hs : ModelBuild.Scalars b2 = ModelBuild.Scalars b1).
  { apply assemble_spec in Hb1 as (_ & _ & _ & _ & -> & _).
    apply assemble_spec in Hb2 as (_ & _ & _ & _ & -> & _).
    now rewrite Hsc. }
  assert (b2 = b1) as ->.
  { destruct b1, b2. simpl in *. congruence. }
  unfold MutateConfig. now rewrite Hb1, Hb2.
Qed.

End Further.

(** ** The further properties on sample schemas *)

Module SampleMore.

(** The sample configuration with a user model for [Profile] that the
    binder of [Sample] does not find. *)
Definition cfgCustom : config.Config :=
  {| config.Schema := Sample.schema;
     config.Models :=
       <["Profile" := {| config.Model := ["myapp/custom.Profile"];
                         config.Fields := ∅ |}]> Sample.models;
     config.Model_ := config.Model_ Sample.cfg |}.

(** A binder that knows the struct [time.Time], and a configuration that
    maps the scalar [Time] to it. *)
Definition timeType : types.Type_ :=
  types.Named {| types.Path := "time"; types.PkgName := "time" |} "Time"
    (Some types.Struct).

Definition FindTypeFromName (name : string) : result types.Type_ :=
  if String.eqb name "time.Time" then Ok timeType
  else Err ("unable to find type " ++ name)%string.

Definition cfgTime : config.Config :=
  {| config.Schema := Sample.schema;
     config.Models :=
       <["Time" := {| config.Model := ["time.Time"];
                      config.Fields := ∅ |}]> Sample.models;
     config.Model_ := config.Model_ Sample.cfg |}.

Definition fProfile : ast.FieldDefinition :=
  Sample.fld "profile" (Sample.named "Profile" true) [].
Definition fStatus : ast.FieldDefinition :=
  Sample.fld "status" (Sample.named "Status" false) [].
Definition fSeen : ast.FieldDefinition :=
  Sample.fld "seen" (Sample.named "Time" false) [].
Definition fAt : ast.FieldDefinition :=
  Sample.fld "at" (Sample.named "Time" true) [].
Definition fMissing : ast.FieldDefinition :=
  Sample.fld "ghost" (Sample.named "Ghost" false) [].
Definition fOdd : ast.FieldDefinition :=
  Sample.fld "odd" (Sample.named "Odd" false) [].
Definition fBio : ast.FieldDefinition :=
  Sample.fld "bio" (Sample.named "String" false) [].

(** The fields of [User] before and after [profile]. *)
Definition userBefore : list ast.FieldDefinition :=
  [ Sample.fld "id" (Sample.named "ID" true) [];
    Sample.fld "name" (Sample.named "String" false) [Sample.isDatabaseField];
    Sample.fld "email" (Sample.named "String" false)
      [Sample.isDatabaseField_as "mail"] ].
Definition userAfter : list ast.FieldDefinition :=
  [ Sample.fld "friends" (Sample.listOf (Sample.named "User" false) false) [];
    fStatus; fSeen ].

(** Two scalars, to tell the orders of visit apart. *)
Definition tDate : ast.Definition_ :=
  Sample.def 11 ast.Scalar "Date" [] [] [] false.
Definition twoScalars : list ast.Definition_ := [Sample.tTime; tDate].

End SampleMore.

Lemma SampleMore_custom_run :
  Sample.run SampleMore.cfgCustom Sample.allTypes
  = Returned (Some "unable to find type myapp/custom.Profile")
      (initial_host SampleMore.cfgCustom).
Proof. vm_compute. reflexivity. Qed.

Lemma returned_error_origin_witness :
  Sample.run SampleMore.cfgCustom Sample.allTypes
  = Returned (Some "unable to find type myapp/custom.Profile")
      (initial_host SampleMore.cfgCustom)
  /\ ((initial_host SampleMore.cfgCustom = initial_host SampleMore.cfgCustom
       /\ exists d field,
            d ∈ Sample.allTypes
            /\ sel_model (config.Schema SampleMore.cfgCustom) d = true
            /\ field ∈ ast.Fields d
            /\ sample_compose_field SampleMore.cfgCustom d field
               = Err "unable to find type myapp/custom.Profile")
      \/ exists b,
           sample_assemble SampleMore.cfgCustom Sample.allTypes = Ok b
           /\ Sample.Render
                (render_options Sample.modelTemplate SampleMore.cfgCustom b)
              = Some "unable to find type myapp/custom.Profile"
           /\ last (host_calls (initial_host SampleMore.cfgCustom))
              = Some (CallRender
                        (render_options Sample.modelTemplate
                           SampleMore.cfgCustom b))).
Proof.
  split; [exact SampleMore_custom_run|].
  exact (returned_error_origin Sample.FindTypeFromName
           Sample.CopyModifiersFromAst Sample.ToGo Sample.Render
           Sample.modelTemplate SampleMore.cfgCustom Sample.allTypes _ _
           SampleMore_custom_run).
Defined.

Lemma SampleMore_odd_run :
  Sample.run (Sample.cfg_of [Sample.tOdd; Sample.tHolder])
    [Sample.tOdd; Sample.tHolder]
  = Panicked "unknown ast type FRAGMENT".
Proof. vm_compute. reflexivity. Qed.

Lemma panic_origin_witness :
  Sample.run (Sample.cfg_of [Sample.tOdd; Sample.tHolder])
    [Sample.tOdd; Sample.tHolder]
  = Panicked "unknown ast type FRAGMENT"
  /\ exists d field,
       d ∈ [Sample.tOdd; Sample.tHolder]
       /\ sel_model
            (config.Schema (Sample.cfg_of [Sample.tOdd; Sample.tHolder])) d
          = true
       /\ field ∈ ast.Fields d
       /\ sample_compose_field (Sample.cfg_of [Sample.tOdd; Sample.tHolder])
            d field
          = Panic "unknown ast type FRAGMENT".
Proof.
  split; [exact SampleMore_odd_run|].
  exact (panic_origin Sample.FindTypeFromName Sample.CopyModifiersFromAst
           Sample.ToGo Sample.Render Sample.modelTemplate _ _ _
           SampleMore_odd_run).
Defined.

Lemma first_failing_field_decides_witness :
  ast.Fields Sample.tUser
  = SampleMore.userBefore ++ SampleMore.fProfile :: SampleMore.userAfter
  /\ sample_compose_field SampleMore.cfgCustom Sample.tUser
       SampleMore.fProfile
     = Err "unable to find type myapp/custom.Profile"
  /\ build_object Sample.FindTypeFromName Sample.CopyModifiersFromAst
       Sample.ToGo SampleMore.cfgCustom Sample.tUser
     = Err "unable to find type myapp/custom.Profile".
Proof.
  split; [reflexivity|]. split; [vm_compute; reflexivity|].
  refine (proj1 (first_failing_field_decides Sample.FindTypeFromName
           Sample.CopyModifiersFromAst Sample.ToGo SampleMore.cfgCustom
           Sample.tUser SampleMore.userBefore SampleMore.fProfile
           SampleMore.userAfter eq_refl _) _ _).
  - repeat constructor.
  - vm_compute. reflexivity.
Defined.

Lemma object_fields_never_by_value_witness :
  exists f,
    sample_compose_field Sample.cfg Sample.tUser SampleMore.fProfile = Ok f
    /\ isStruct (Field.Type_ f) = false.
Proof.
  eexists. split; [vm_compute; reflexivity|].
  exact (object_fields_never_by_value Sample.FindTypeFromName
           Sample.CopyModifiersFromAst Sample.ToGo Sample.cfg Sample.tUser
           SampleMore.fProfile "Profile" Sample.tProfile _
           eq_refl eq_refl eq_refl eq_refl).
Defined.

(** With the scalar [Time] mapped to the struct [time.Time], a non-null
    field of that type holds the struct by value. *)
Lemma other_kinds_keep_their_type_witness :
  exists f,
    compose_field SampleMore.FindTypeFromName Sample.CopyModifiersFromAst
      Sample.ToGo SampleMore.cfgTime Sample.tUser SampleMore.fAt = Ok f
    /\ Field.Type_ f = SampleMore.timeType
    /\ isStruct (Field.Type_ f) = true.
Proof.
  destruct (other_kinds_keep_their_type SampleMore.FindTypeFromName
              Sample.CopyModifiersFromAst Sample.ToGo SampleMore.cfgTime
              Sample.tUser SampleMore.fAt "Time" Sample.tTime
              SampleMore.timeType eq_refl eq_refl eq_refl eq_refl)
    as (f & Hf & Ht).
  exists f. split; [exact Hf|]. split; [exact Ht|].
  rewrite Ht. reflexivity.
Defined.

Lemma scalar_field_is_string_witness :
  exists f,
    sample_compose_field Sample.cfg Sample.tUser SampleMore.fSeen = Ok f
    /\ Field.Type_ f =
       types.Pointer
         (types.Named (config.Pkg (config.Model_ Sample.cfg)) "string" None).
Proof.
  exact (scalar_field_is_string Sample.FindTypeFromName
           Sample.CopyModifiersFromAst Sample.ToGo Sample.cfg Sample.tUser
           SampleMore.fSeen "Time" Sample.tTime
           eq_refl eq_refl eq_refl eq_refl).
Defined.

Lemma user_model_decides_witness :
  sample_compose_field SampleMore.cfgCustom Sample.tUser SampleMore.fProfile
  = Err "unable to find type myapp/custom.Profile"
  /\ exists f,
       compose_field SampleMore.FindTypeFromName Sample.CopyModifiersFromAst
         Sample.ToGo SampleMore.cfgTime Sample.tUser SampleMore.fSeen = Ok f
       /\ Field.Type_ f = types.Pointer SampleMore.timeType.
Proof.
  split.
  - exact (proj1 (user_model_decides Sample.FindTypeFromName
             Sample.CopyModifiersFromAst Sample.ToGo SampleMore.cfgCustom
             Sample.tUser SampleMore.fProfile "Profile"
             {| config.Model := ["myapp/custom.Profile"];
                config.Fields := ∅ |}
             "myapp/custom.Profile" [] eq_refl eq_refl eq_refl)
             _ eq_refl).
  - exact (proj2 (user_model_decides SampleMore.FindTypeFromName
             Sample.CopyModifiersFromAst Sample.ToGo SampleMore.cfgTime
             Sample.tUser SampleMore.fSeen "Time"
             {| config.Model := ["time.Time"]; config.Fields := ∅ |}
             "time.Time" [] eq_refl eq_refl eq_refl)
             SampleMore.timeType eq_refl eq_refl).
Defined.

Lemma undefined_field_type_panics_witness :
  sample_compose_field Sample.cfg Sample.tUser SampleMore.fMissing
  = Panic nil_dereference.
Proof.
  exact (undefined_field_type_panics Sample.FindTypeFromName
           Sample.CopyModifiersFromAst Sample.ToGo Sample.cfg Sample.tUser
           SampleMore.fMissing "Ghost" eq_refl eq_refl eq_refl).
Defined.

Lemma unknown_kind_field_panics_witness :
  sample_compose_field (Sample.cfg_of [Sample.tOdd; Sample.tHolder])
    Sample.tHolder SampleMore.fOdd
  = Panic "unknown ast type FRAGMENT".
Proof.
  exact (unknown_kind_field_panics Sample.FindTypeFromName
           Sample.CopyModifiersFromAst Sample.ToGo
           (Sample.cfg_of [Sample.tOdd; Sample.tHolder]) Sample.tHolder
           SampleMore.fOdd "Odd" Sample.tOdd eq_refl eq_refl eq_refl eq_refl).
Defined.

Lemma unconfigured_field_keeps_its_name_witness :
  config.Models Sample.cfg !! "Profile" = None
  /\ exists f,
       sample_compose_field Sample.cfg Sample.tProfile SampleMore.fBio = Ok f
       /\ Field.Name f = "bio".
Proof.
  split; [reflexivity|]. eexists. split; [vm_compute; reflexivity|].
  exact (unconfigured_field_keeps_its_name Sample.FindTypeFromName
           Sample.CopyModifiersFromAst Sample.ToGo Sample.cfg Sample.tProfile
           SampleMore.fBio _ (or_introl eq_refl) eq_refl).
Defined.

Lemma Sample_User_in : Sample.tUser ∈ Sample.allTypes.
Proof. apply list_elem_of_here. Qed.

Lemma Sample_Status_in : Sample.tStatus ∈ Sample.allTypes.
Proof. do 3 apply list_elem_of_further. apply list_elem_of_here. Qed.

Lemma every_type_is_emitted_witness :
  sample_assemble Sample.cfg Sample.allTypes = Ok Sample.build
  /\ (exists m, m ∈ ModelBuild.Models Sample.build
        /\ build_object Sample.FindTypeFromName Sample.CopyModifiersFromAst
             Sample.ToGo Sample.cfg Sample.tUser = Ok m)
  /\ build_enum Sample.tStatus ∈ ModelBuild.Enums Sample.build.
Proof.
  split; [exact Sample_assembled|]. split.
  - exact (proj1 (proj2 (every_type_is_emitted Sample.FindTypeFromName
             Sample.CopyModifiersFromAst Sample.ToGo Sample.cfg
             Sample.allTypes Sample.build Sample.tUser Sample_assembled
             Sample_User_in eq_refl)) eq_refl eq_refl).
  - exact (proj1 (proj2 (proj2 (every_type_is_emitted
             Sample.FindTypeFromName Sample.CopyModifiersFromAst Sample.ToGo
             Sample.cfg Sample.allTypes Sample.build Sample.tStatus
             Sample_assembled Sample_Status_in eq_refl))) eq_refl).
Defined.

Lemma Sample_User_name_in : "User" ∈ build_names Sample.build.
Proof. do 2 apply list_elem_of_further. apply list_elem_of_here. Qed.

Lemma emitted_names_are_schema_types_witness :
  sample_assemble Sample.cfg Sample.allTypes = Ok Sample.build
  /\ "User" ∈ build_names Sample.build
  /\ exists d, d ∈ Sample.allTypes /\ ast.BuiltIn d = false
       /\ known_kind (ast.Kind d) = true /\ ast.DefName d = "User".
Proof.
  split; [exact Sample_assembled|]. split; [exact Sample_User_name_in|].
  exact (emitted_names_are_schema_types Sample.FindTypeFromName
           Sample.CopyModifiersFromAst Sample.ToGo Sample.cfg Sample.allTypes
           Sample.build "User" Sample_assembled Sample_User_name_in).
Defined.

Lemma enum_values_in_declaration_order_witness :
  sample_assemble Sample.cfg Sample.allTypes = Ok Sample.build
  /\ forall e, e ∈ ModelBuild.Enums Sample.build ->
       exists d, d ∈ Sample.allTypes /\ ast.Kind d = ast.Enum
         /\ Enum.Name e = ast.DefName d
         /\ Enum.Description e = ast.Description d
         /\ EnumValue.Name <$> Enum.Values e
            = ast.ValueName <$> ast.EnumValues d.
Proof.
  split; [exact Sample_assembled|]. intros e He.
  exact (enum_values_in_declaration_order Sample.FindTypeFromName
           Sample.CopyModifiersFromAst Sample.ToGo Sample.cfg Sample.allTypes
           Sample.build e Sample_assembled He).
Defined.

(** Two scalars visited in two orders are listed in two orders. *)
Lemma SampleMore_scalars :
  sample_assemble (Sample.cfg_of SampleMore.twoScalars) SampleMore.twoScalars
  = Ok {| ModelBuild.PackageName := "model";
          ModelBuild.Interfaces := []; ModelBuild.Models := [];
          ModelBuild.Enums := []; ModelBuild.Scalars := ["Time"; "Date"] |}.
Proof. vm_compute. reflexivity. Qed.

Lemma SampleMore_scalars_reverse :
  sample_assemble (Sample.cfg_of SampleMore.twoScalars)
    (reverse SampleMore.twoScalars)
  = Ok {| ModelBuild.PackageName := "model";
          ModelBuild.Interfaces := []; ModelBuild.Models := [];
          ModelBuild.Enums := []; ModelBuild.Scalars := ["Date"; "Time"] |}.
Proof. vm_compute. reflexivity. Qed.

Lemma scalars_follow_visit_order_witness :
  sample_assemble (Sample.cfg_of SampleMore.twoScalars) SampleMore.twoScalars
  = Ok {| ModelBuild.PackageName := "model";
          ModelBuild.Interfaces := []; ModelBuild.Models := [];
          ModelBuild.Enums := []; ModelBuild.Scalars := ["Time"; "Date"] |}
  /\ ["Date"; "Time"] = reverse ["Time"; "Date"].
Proof.
  split; [exact SampleMore_scalars|].
  exact (proj2 (proj2 (scalars_follow_visit_order Sample.FindTypeFromName
           Sample.CopyModifiersFromAst Sample.ToGo _ _ _ SampleMore_scalars))
           _ SampleMore_scalars_reverse).
Defined.

Lemma Sample_run_returns :
  exists h, Sample.run Sample.cfg Sample.allTypes = Returned None h.
Proof. eexists. vm_compute. reflexivity. Qed.

Lemma generated_names_are_user_defined_witness :
  exists h,
    Sample.run Sample.cfg Sample.allTypes = Returned None h
    /\ "User" ∈ build_names Sample.build
    /\ config.UserDefined (config.Models Sample.cfg) "User" = false
    /\ config.UserDefined (host_models h) "User" = true.
Proof.
  destruct Sample_run_returns as [h Hh]. exists h.
  split; [exact Hh|]. split; [exact Sample_User_name_in|].
  split; [reflexivity|].
  exact (generated_names_are_user_defined Sample.FindTypeFromName
           Sample.CopyModifiersFromAst Sample.ToGo Sample.Render
           Sample.modelTemplate Sample.cfg Sample.allTypes Sample.build
           None h "User" Sample_assembled Hh Sample_User_name_in).
Defined.

Lemma registration_only_appends_witness :
  exists h,
    Sample.run Sample.cfg Sample.allTypes = Returned None h
    /\ config.Fields (config.TypeMap_get (host_models h) "User")
       = config.Fields (config.TypeMap_get (config.Models Sample.cfg) "User")
    /\ config.Model (config.TypeMap_get (config.Models Sample.cfg) "User")
       `prefix_of` config.Model (config.TypeMap_get (host_models h) "User").
Proof.
  destruct Sample_run_returns as [h Hh]. exists h.
  split; [exact Hh|].
  destruct (registration_only_appends Sample.FindTypeFromName
              Sample.CopyModifiersFromAst Sample.ToGo Sample.Render
              Sample.modelTemplate Sample.cfg Sample.allTypes None h "User" Hh)
    as (Hf & Hm & _).
  split; [exact Hf|exact Hm].
Defined.

Lemma tags_are_distinct_witness :
  exists m,
    build_object Sample.FindTypeFromName Sample.CopyModifiersFromAst
      Sample.ToGo Sample.cfg Sample.tUser = Ok m
    /\ NoDup (ast.FieldName <$> ast.Fields Sample.tUser)
    /\ NoDup (Field.Tag <$> Object.Fields m).
Proof.
  assert (Hnd : NoDup (ast.FieldName <$> ast.Fields Sample.tUser)).
  { apply (bool_decide_unpack _). vm_compute. exact I. }
  eexists. split; [vm_compute; reflexivity|]. split; [exact Hnd|].
  exact (tags_are_distinct Sample.FindTypeFromName
           Sample.CopyModifiersFromAst Sample.ToGo Sample.cfg Sample.tUser
           _ eq_refl Hnd).
Defined.

Lemma Sample_assembled_is_Ok :
  is_Ok (sample_assemble Sample.cfg Sample.allTypes).
Proof. rewrite Sample_assembled. exact I. Qed.

Lemma run_reproducible_up_to_scalar_order_witness :
  filter (fun d => sel_scalar d) Sample.allTypes
  = filter (fun d => sel_scalar d) (reverse Sample.allTypes)
  /\ Sample.run Sample.cfg (reverse Sample.allTypes)
     = Sample.run Sample.cfg Sample.allTypes.
Proof.
  assert (Hs : filter (fun d => sel_scalar d) Sample.allTypes
               = filter (fun d => sel_scalar d) (reverse Sample.allTypes))
    by (vm_compute; reflexivity).
  split; [exact Hs|].
  exact (run_reproducible_up_to_scalar_order Sample.FindTypeFromName
           Sample.CopyModifiersFromAst Sample.ToGo Sample.Render
           Sample.modelTemplate Sample.cfg Sample.allTypes
           (reverse Sample.allTypes) Sample_keyed_by_name
           Sample_range_order Sample_range_order_reverse Hs
           Sample_assembled_is_Ok).
Defined.

(** * Kinds outside the known ones *)

Module SampleOdd.

(** The sample schema with the type [Odd], of the kind FRAGMENT, added to
    its type table; the configuration is that of the sample. *)
Definition allTypes : list ast.Definition_ := Sample.tOdd :: Sample.allTypes.

Definition cfg : config.Config :=
  {| config.Schema :=
       {| ast.Query := Some Sample.tQuery;
          ast.Mutation := None;
          ast.Subscription := None;
          ast.Types :=
            list_to_map (map (fun d => (ast.DefName d, d)) allTypes);
          ast.Implements := {[ "User" := [Sample.tNode] ]} |};
     config.Models := Sample.models;
     config.Model_ := config.Model_ Sample.cfg |}.

End SampleOdd.

Section UnknownKinds.

Variable FindTypeFromName : string -> result types.Type_.
Variable CopyModifiersFromAst : ast.Type_ -> types.Type_ -> types.Type_.
Variable ToGo : string -> string.
Variable Render : Options.t -> option error.
Variable modelTemplate : string.

Abbreviation compose_field' :=
  (compose_field FindTypeFromName CopyModifiersFromAst ToGo).
Abbreviation build_object' :=
  (build_object FindTypeFromName CopyModifiersFromAst ToGo).
Abbreviation classify_types' :=
  (classify_types FindTypeFromName CopyModifiersFromAst ToGo).
Abbreviation assemble' := (assemble FindTypeFromName CopyModifiersFromAst ToGo).
Abbreviation MutateConfig' :=
  (MutateConfig FindTypeFromName CopyModifiersFromAst ToGo Render
     modelTemplate).



End UnknownKinds.





